(** * Risk metrics of an equal-weighted portfolio: a model of [src/risk.py]

    The class [CompareMetrics] derives a daily-return and a daily-value
    series from a price table, evaluates a Sharpe and a Burke ratio at a
    historical offset, sweeps both over a range of offsets and correlates the
    two columns.

    The program is Python over pandas/NumPy, so a number is one of three
    run-time kinds: a Python [int], a Python [float], or a NumPy [float64]
    scalar (what [row.iloc[i]] of a float table returns).  All three kinds of
    float are IEEE binary64 and are modelled by Rocq's primitive floats; the
    kind decides what a division by zero or an overflow does (Python raises,
    NumPy returns inf/nan with a warning).  A raised exception is the [Raise]
    outcome of the [result] monad. *)

From Stdlib Require Import ZArith List Floats Lia Bool.
From stdpp Require Import base option list gmap.

#[local] Open Scope Z_scope.

(** ** Exceptions and outcomes *)

Inductive exn : Set :=
| ZeroDivisionError
| OverflowError
| ValueError
| IndexError.

Inductive result (A : Type) : Type :=
| Ok (a : A)
| Raise (e : exn).
Arguments Ok {A} a.
Arguments Raise {A} e.

Definition bind {A B} (m : result A) (k : A -> result B) : result B :=
  match m with
  | Ok a => k a
  | Raise e => Raise e
  end.

Declare Scope result_scope.
Notation "x ← y ; z" := (bind y (fun x => z))
  (at level 20, y at level 100, z at level 200, only parsing) : result_scope.
Notation "' x ← y ; z" := (bind y (fun x => z))
  (at level 20, x pattern, y at level 100, z at level 200, only parsing)
  : result_scope.
#[local] Open Scope result_scope.

Definition raises {A} (m : result A) : bool :=
  match m with Ok _ => false | Raise _ => true end.

(** ** Numbers *)

Inductive num : Set :=
| PyInt (z : Z)          (* Python int, unbounded *)
| PyFloat (f : float)    (* Python float *)
| NpFloat (f : float).   (* numpy.float64, a subclass of float *)

(** The binary64 nearest to an integer (ties to even, infinite beyond the
    range).  Below 2^53 the integer is a float itself and the machine
    conversion gives it. *)
Definition nearest_float (z : Z) : float :=
  if Z.abs z <? 2 ^ 53 then
    let f := of_uint63 (Uint63.of_Z (Z.abs z)) in
    if z <? 0 then (- f)%float else f
  else SF2Prim (binary_normalize prec emax z 0 false).

(** [float(z)]: the nearest binary64, [OverflowError] when it does not fit. *)
Definition float_of_int (z : Z) : result float :=
  let f := nearest_float z in
  if is_infinity f then Raise OverflowError else Ok f.

Definition as_float (x : num) : result float :=
  match x with
  | PyInt z => float_of_int z
  | PyFloat f | NpFloat f => Ok f
  end.

Definition is_np (x : num) : bool :=
  match x with NpFloat _ => true | _ => false end.

Definition num_is_zero (x : num) : bool :=
  match x with
  | PyInt z => z =? 0
  | PyFloat f | NpFloat f => is_zero f
  end.

(** [x + y], [x - y], [x * y].  Two ints stay exact; as soon as one operand
    is a numpy.float64 its (reflected) method wins and the result is a
    numpy.float64; otherwise the result is a Python float.  None of the three
    raises on floats. *)
Definition arith (iop : Z -> Z -> Z) (fop : float -> float -> float)
    (x y : num) : result num :=
  match x, y with
  | PyInt a, PyInt b => Ok (PyInt (iop a b))
  | _, _ =>
    a ← as_float x;
    b ← as_float y;
    Ok ((if is_np x || is_np y then NpFloat else PyFloat) (fop a b))
  end.

Definition py_add : num -> num -> result num := arith Z.add PrimFloat.add.
Definition py_sub : num -> num -> result num := arith Z.sub PrimFloat.sub.
Definition py_mul : num -> num -> result num := arith Z.mul PrimFloat.mul.

(** [a / b] on two ints: the exact quotient rounded once to binary64, so the
    operands themselves need not fit a float. *)
Definition spec_of_int (z : Z) : spec_float :=
  match z with
  | Z0 => S754_zero false
  | Zpos p => S754_finite false p 0
  | Zneg p => S754_finite true p 0
  end.

Definition int_truediv (a b : Z) : result float :=
  if b =? 0 then Raise ZeroDivisionError
  else
    let q := SF2Prim (SFdiv prec emax (spec_of_int a) (spec_of_int b)) in
    if is_infinity q then Raise OverflowError else Ok q.

(** [x / y].  NumPy divides as IEEE does (inf or nan at a zero divisor, with
    a RuntimeWarning); Python raises [ZeroDivisionError] for ints and floats
    alike. *)
Definition py_truediv (x y : num) : result num :=
  match x, y with
  | PyInt a, PyInt b => q ← int_truediv a b; Ok (PyFloat q)
  | _, _ =>
    if is_np x || is_np y then
      a ← as_float x;
      b ← as_float y;
      Ok (NpFloat (a / b))
    else if num_is_zero y then Raise ZeroDivisionError
    else
      a ← as_float x;
      b ← as_float y;
      Ok (PyFloat (a / b))
  end.

(** [math.sqrt(x)]: a Python float; [ValueError] below zero. *)
Definition math_sqrt (x : num) : result num :=
  f ← as_float x;
  if (f <? 0)%float then Raise ValueError else Ok (PyFloat (PrimFloat.sqrt f)).

Section Power.

(** The C library's [pow] on doubles, which both float kinds call for
    [**].  Its last-bit rounding is the platform's, so it stays abstract. *)
Variable libm_pow : float -> float -> float.

(** CPython's [float_pow] with an int exponent: zero to a negative power
    raises, an overflowing result of finite operands raises. *)
Definition float_pow (v : float) (n : Z) : result num :=
  w ← float_of_int n;
  if is_zero v && (n <? 0) then Raise ZeroDivisionError
  else
    let r := libm_pow v w in
    if is_finite v && is_infinity r then Raise OverflowError
    else Ok (PyFloat r).

(** [x ** n] for an int [n]. *)
Definition py_pow (x : num) (n : Z) : result num :=
  match x with
  | PyInt a =>
    if 0 <=? n then Ok (PyInt (a ^ n))
    else v ← float_of_int a; float_pow v n
  | PyFloat v => float_pow v n
  | NpFloat v => w ← float_of_int n; Ok (NpFloat (libm_pow v w))
  end.

End Power.

(** Expressions are written as in the source: operators on outcomes,
    evaluated left to right, a number being its own outcome. *)
Definition ret_num (x : num) : result num := Ok x.
Coercion ret_num : num >-> result.

Definition lift2 (op : num -> num -> result num) (a b : result num)
    : result num :=
  x ← a; y ← b; op x y.

Declare Scope py_scope.
Delimit Scope py_scope with py.
Notation "a + b" := (lift2 py_add a b) : py_scope.
Notation "a - b" := (lift2 py_sub a b) : py_scope.
Notation "a * b" := (lift2 py_mul a b) : py_scope.
Notation "a / b" := (lift2 py_truediv a b) : py_scope.

(** ** Built-ins on lists *)

Definition len {A} (l : list A) : Z := Z.of_nat (length l).

(** [sum(l)]: starts from the int 0 and adds left to right (CPython from
    3.12 on compensates the rounding of a run of Python floats; no statement
    below depends on the rounding). *)
Fixpoint sum_from (acc : num) (l : list num) : result num :=
  match l with
  | [] => Ok acc
  | x :: rest => acc' ← py_add acc x; sum_from acc' rest
  end.

Definition py_sum (l : list num) : result num := sum_from (PyInt 0) l.

(** [max(l)] on floats: the first element, replaced by each later one that
    compares greater; [ValueError] on the empty list. *)
Fixpoint max_from (m : float) (l : list float) : float :=
  match l with
  | [] => m
  | x :: rest => max_from (if (m <? x)%float then x else m) rest
  end.

Definition py_max (l : list float) : result float :=
  match l with
  | [] => Raise ValueError
  | x :: rest => Ok (max_from x rest)
  end.

(** [l[0:k]]: a negative stop counts from the end, and the stop is clamped to
    the list. *)
Definition slice_to {A} (l : list A) (k : Z) : list A :=
  let stop := if k <? 0 then Z.max 0 (k + len l) else Z.min k (len l) in
  take (Z.to_nat stop) l.

(** [.iloc[i]]: a negative position counts from the end; [IndexError]
    outside the table. *)
Definition iloc {A} (l : list A) (i : Z) : result A :=
  let j := if i <? 0 then i + len l else i in
  if (0 <=? j) && (j <? len l) then
    match l !! Z.to_nat j with
    | Some a => Ok a
    | None => Raise IndexError
    end
  else Raise IndexError.

(** [range(start, stop, step)] for the positive step the source uses. *)
Definition py_range (start stop step : Z) : list Z :=
  map (fun k => start + step * Z.of_nat k)
      (seq 0 (Z.to_nat ((stop - start + step - 1) / step))).

(** A list comprehension whose body may raise: elements in order, the first
    exception ends it. *)
Fixpoint comprehension {A B} (f : A -> result B) (l : list A)
    : result (list B) :=
  match l with
  | [] => Ok []
  | x :: rest => y ← f x; ys ← comprehension f rest; Ok (y :: ys)
  end.

(** ** The price table and the pandas calls on it *)

(** A row of the table: one numpy.float64 per asset, NaN where the price is
    missing.  The table is the list of its rows, oldest first. *)
Abbreviation Row := (list float).
Abbreviation PriceTable := (list (list float)).

(** Every row has the same number of columns, as in a DataFrame. *)
Definition rectangular (ncols : nat) (table : PriceTable) : Prop :=
  Forall (fun row : Row => length row = ncols) table.

Definition observed (cell : float) : bool := negb (is_nan cell).

(** [Series.sum()] of a row with pandas' default [skipna]: NaN adds nothing,
    an all-NaN row sums to 0.0. *)
Definition row_sum (row : Row) : float :=
  fold_left (fun acc cell => if is_nan cell then acc else (acc + cell)%float)
            row 0%float.

(** The two-column frame of the sweep, indexed by offset. *)
Record DataFrame : Type := {
  index : list Z;
  Sharpe : list float;
  Burke : list float
}.

(** The attributes of a [CompareMetrics] object that its methods read. *)
Record CompareMetrics : Type := {
  portfolio : PriceTable;
  daily_returns : list num;
  daily_values : list float;
  compareMetrics : DataFrame
}.

(** ** [__calc_daily_returns] *)

(** Lines 37-50: one pass over the cells of a row.  [lastValues] maps a
    column to the last price seen for it. *)
Fixpoint series_loop (cells : Row) (seriesIdx : nat)
    (lastValues : gmap nat float) (totalROC : num) (numCounted : Z)
    : result (gmap nat float * num * Z) :=
  match cells with
  | [] => Ok (lastValues, totalROC, numCounted)
  | cell :: rest =>
    match lastValues !! seriesIdx with
    | None =>
      if negb (is_nan cell) then
        series_loop rest (S seriesIdx) (<[seriesIdx := cell]> lastValues)
                    totalROC (numCounted + 1)
      else series_loop rest (S seriesIdx) lastValues totalROC numCounted
    | Some prevValue =>
      if negb (is_nan cell) then
        totalROC' ← (totalROC +
                     (NpFloat cell - NpFloat prevValue) / NpFloat prevValue)%py;
        series_loop rest (S seriesIdx) (<[seriesIdx := cell]> lastValues)
                    totalROC' (numCounted + 1)
      else series_loop rest (S seriesIdx) lastValues totalROC numCounted
    end
  end.

(** Lines 28-52: the body of the loop over days, for one row. *)
Definition daily_return (lastValues : gmap nat float) (row : Row)
    : result (gmap nat float * num) :=
  '(lastValues', totalROC, numCounted) ←
    series_loop row 0%nat lastValues (PyInt 0) 0;
  r ← (totalROC / PyInt numCounted)%py;
  Ok (lastValues', r).

(** Lines 27-54: the loop over days. *)
Fixpoint days_loop (rows : PriceTable) (lastValues : gmap nat float)
    (dailyReturns : list num) : result (list num) :=
  match rows with
  | [] => Ok dailyReturns
  | row :: rest =>
    '(lastValues', r) ← daily_return lastValues row;
    days_loop rest lastValues' (dailyReturns ++ [r])
  end.

Definition calc_daily_returns (self : CompareMetrics) : result (list num) :=
  days_loop (portfolio self) ∅ [].

(** ** [__calc_daily_values] *)

Definition calc_daily_values (self : CompareMetrics) : list float :=
  map row_sum (portfolio self).

Section Ratios.

Variable libm_pow : float -> float -> float.

Notation "a ** n" := (bind a (fun x => py_pow libm_pow x n))
  (at level 30, right associativity) : py_scope.

(** The literal 0.0426 as the binary64 Python reads it. *)
Definition treasury_rate : float := 0x1.5cfaacd9e83e4p-5%float.

(** ** [__my_metric]: the Burke ratio *)

(** Lines 90-93: the loop over the columns of the initial row. *)
Fixpoint window_loop (initCells : Row) (seriesIdx : nat) (targetDate : Row)
    (numCounted : Z) (cumReturns : num) : result (Z * num) :=
  match initCells with
  | [] => Ok (numCounted, cumReturns)
  | init :: rest =>
    match targetDate !! seriesIdx with
    | None => Raise IndexError
    | Some target =>
      if negb (is_nan target || is_nan init) then
        cumReturns' ← (cumReturns +
                       (NpFloat target - NpFloat init) / NpFloat init)%py;
        window_loop rest (S seriesIdx) targetDate (numCounted + 1) cumReturns'
      else window_loop rest (S seriesIdx) targetDate numCounted cumReturns
    end
  end.

(** Lines 82-106: the value of [returns]. *)
Definition period_returns (self : CompareMetrics) (burkeRatioIdx : Z)
    (adjustedScale : Z) (targetDate : Row) : result num :=
  if adjustedScale <=? burkeRatioIdx + 1 then
    let initDateIdx := burkeRatioIdx - adjustedScale + 1 in
    initialDate ← iloc (portfolio self) initDateIdx;
    '(numCounted, cumReturns) ←
      window_loop initialDate 0%nat targetDate 0 (PyInt 0);
    (cumReturns / PyInt numCounted)%py
  else
    let relevantDailyRets :=
      slice_to (daily_returns self) (burkeRatioIdx + 1) in
    avgDailyRet ← (py_sum relevantDailyRets / PyInt (len relevantDailyRets))%py;
    (((PyInt 1 + avgDailyRet) ** adjustedScale) - PyInt 1)%py.

(** Lines 114-122: the value of [denom]. *)
Definition drawdown_denom (self : CompareMetrics) (burkeRatioIdx : Z)
    : result num :=
  let sumValues := slice_to (daily_values self) (burkeRatioIdx + 1) in
  maximum ← py_max sumValues;
  drawdowns ← comprehension
    (fun xi => (PyFloat xi - PyFloat maximum) / PyFloat maximum)%py sumValues;
  drawdowns2 ← comprehension (fun xi : num => (xi ** 2)%py) drawdowns;
  s ← py_sum drawdowns2;
  math_sqrt s.

Definition my_metric (self : CompareMetrics) (daysin adjustedScale : Z)
    : result num :=
  let adjustedScale := 252 in
  riskFreeReturnRate ←
    (PyFloat treasury_rate / PyInt 252 * PyInt adjustedScale)%py;
  let burkeRatioIdx := len (portfolio self) - 1 - daysin in
  targetDate ← iloc (portfolio self) burkeRatioIdx;
  returns ← period_returns self burkeRatioIdx adjustedScale targetDate;
  rpMinusrf ← (returns - riskFreeReturnRate)%py;
  denom ← drawdown_denom self burkeRatioIdx;
  (rpMinusrf / denom)%py.

(** ** [__sharpe_ratio] *)

(** Lines 147-151: the value of [avgPeriodRet], with the mean beside it. *)
Definition sharpe_period_return (relevantDailyRets : list num)
    (adjustedScale : Z) : result (num * num) :=
  avgDailyRet ← (py_sum relevantDailyRets / PyInt (len relevantDailyRets))%py;
  avgPeriodRet ← (((PyInt 1 + avgDailyRet) ** adjustedScale) - PyInt 1)%py;
  Ok (avgDailyRet, avgPeriodRet).

Definition sharpe_ratio (self : CompareMetrics) (daysin adjustedScale : Z)
    : result num :=
  riskFreeReturnRate ←
    (PyFloat treasury_rate / PyInt 252 * PyInt adjustedScale)%py;
  let relevantDailyRets :=
    slice_to (daily_returns self) (len (daily_returns self) - daysin) in
  '(avgDailyRet, avgPeriodRet) ←
    sharpe_period_return relevantDailyRets adjustedScale;
  squares ← comprehension
    (fun xi : num => ((xi - avgDailyRet) ** 2)%py) relevantDailyRets;
  sumDiff2 ← py_sum squares;
  stdev ← ((x ← (sumDiff2 / PyInt (len relevantDailyRets))%py; math_sqrt x)
           * PyInt adjustedScale)%py;
  ((avgPeriodRet - riskFreeReturnRate) / stdev)%py.

(** ** [__compare_metrics] *)

(** Lines 174-176: the two columns grow by one entry per offset. *)
Fixpoint sweep_loop (self : CompareMetrics) (numGenerate : list Z)
    (sharpe burke : list num) : result (list num * list num) :=
  match numGenerate with
  | [] => Ok (sharpe, burke)
  | i :: rest =>
    s ← sharpe_ratio self i 252;
    b ← my_metric self i 252;
    sweep_loop self rest (sharpe ++ [s]) (burke ++ [b])
  end.

(** The frame stores both columns as float64. *)
Definition compare_metrics (self : CompareMetrics) : result DataFrame :=
  let numGenerate := py_range 1 800 15 in
  '(sharpe, burke) ← sweep_loop self numGenerate [] [];
  xs ← comprehension as_float sharpe;
  ys ← comprehension as_float burke;
  Ok {| index := numGenerate; Sharpe := xs; Burke := ys |}.

End Ratios.

(** ** [__get_correlation_coefficient] *)

(** The routine uses its numbers only through these operations.  [E] is what
    a column holds, [V] what the running sums hold. *)
Record Arithmetic (E V : Type) : Type := {
  scalar : E -> V;                 (* the value [.iloc[i]] returns *)
  mean : list E -> E;              (* [Series.mean()] *)
  zero : V;                        (* the literal [0] *)
  plus : V -> V -> result V;
  minus : V -> V -> result V;
  times : V -> V -> result V;
  squared : V -> result V;         (* [v ** 2] *)
  root : V -> result V;            (* [math.sqrt(v)] *)
  over : V -> V -> result V        (* [v / w] *)
}.
Arguments scalar {E V}.
Arguments mean {E V}.
Arguments zero {E V}.
Arguments plus {E V}.
Arguments minus {E V}.
Arguments times {E V}.
Arguments squared {E V}.
Arguments root {E V}.
Arguments over {E V}.

Section Correlation.

Context {E V : Type} (ar : Arithmetic E V).

(** Lines 198-201, over the positions of [xValues]. *)
Fixpoint correlation_loop (xs : list E) (i : nat) (yValues : list E)
    (averageX averageY : E) (sumdXdY sumdX2 sumdY2 : V)
    : result (V * V * V) :=
  match xs with
  | [] => Ok (sumdXdY, sumdX2, sumdY2)
  | x :: rest =>
    let deviation (v a : E) := minus ar (scalar ar v) (scalar ar a) in
    let y_at_i := match yValues !! i with
                  | Some y => Ok y
                  | None => Raise IndexError
                  end in
    dx ← deviation x averageX;
    y ← y_at_i;
    dy ← deviation y averageY;
    dxdy ← times ar dx dy;
    sumdXdY' ← plus ar sumdXdY dxdy;
    dx ← deviation x averageX;
    dx2 ← squared ar dx;
    sumdX2' ← plus ar sumdX2 dx2;
    y ← y_at_i;
    dy ← deviation y averageY;
    dy2 ← squared ar dy;
    sumdY2' ← plus ar sumdY2 dy2;
    correlation_loop rest (S i) yValues averageX averageY
                     sumdXdY' sumdX2' sumdY2'
  end.

Definition correlation (xValues yValues : list E) : result V :=
  let averageX := mean ar xValues in
  let averageY := mean ar yValues in
  sums ← correlation_loop xValues 0%nat yValues averageX averageY
                          (zero ar) (zero ar) (zero ar);
  let '(sumdXdY, sumdX2, sumdY2) := sums in
  product ← times ar sumdX2 sumdY2;
  denominator ← root ar product;
  over ar sumdXdY denominator.

End Correlation.

(** The numbers of the program: float64 elements, sums that start from the
    int 0.  [series_mean] is pandas' [Series.mean()] on a float64 column: the
    order in which it adds the entries is the library's (NumPy's pairwise
    reduction, or the loop of bottleneck where that is installed), so it stays
    abstract, as the C library's [pow] does. *)
Definition python_arithmetic (libm_pow : float -> float -> float)
    (series_mean : list float -> float) : Arithmetic float num := {|
  scalar := NpFloat;
  mean := series_mean;
  zero := PyInt 0;
  plus := py_add;
  minus := py_sub;
  times := py_mul;
  squared := fun v => py_pow libm_pow v 2;
  root := math_sqrt;
  over := py_truediv
|}.

Definition get_correlation_coefficient (libm_pow : float -> float -> float)
    (series_mean : list float -> float) (self : CompareMetrics)
    : result num :=
  let xValues := Sharpe (compareMetrics self) in
  let yValues := Burke (compareMetrics self) in
  correlation (python_arithmetic libm_pow series_mean) xValues yValues.

(** ** [__init__] *)

Record Analysis : Type := {
  object : CompareMetrics;
  myMetric : num;
  sharpeRatio : num;
  correlationCoefficient : num
}.

Definition no_frame : DataFrame := {| index := []; Sharpe := []; Burke := [] |}.

(** The object when only [self.portfolio] is set. *)
Definition bare (table : PriceTable) : CompareMetrics :=
  {| portfolio := table; daily_returns := [];
     daily_values := []; compareMetrics := no_frame |}.

(** Lines 7-9: the object once the two series are cached. *)
Definition with_series (table : PriceTable) : result CompareMetrics :=
  let self := bare table in
  returns ← calc_daily_returns self;
  let self := {| portfolio := table; daily_returns := returns;
                 daily_values := []; compareMetrics := no_frame |} in
  let values := calc_daily_values self in
  Ok {| portfolio := table; daily_returns := returns;
        daily_values := values; compareMetrics := no_frame |}.

(** The attributes are set in the order of the constructor; one not yet set
    is not read by the methods called before it. *)
Definition init (libm_pow : float -> float -> float)
    (series_mean : list float -> float) (table : PriceTable)
    : result Analysis :=
  self ← with_series table;
  let returns := daily_returns self in
  let values := daily_values self in
  burke ← my_metric libm_pow self 0 252;
  sharpe ← sharpe_ratio libm_pow self 0 252;
  frame ← compare_metrics libm_pow self;
  let self := {| portfolio := table; daily_returns := returns;
                 daily_values := values; compareMetrics := frame |} in
  r ← get_correlation_coefficient libm_pow series_mean self;
  Ok {| object := self; myMetric := burke; sharpeRatio := sharpe;
        correlationCoefficient := r |}.

(** The two cached series are the ones the constructor derived from the
    table. *)
Definition cached (self : CompareMetrics) : Prop :=
  calc_daily_returns self = Ok (daily_returns self) /\
  daily_values self = calc_daily_values self.

(** ** [__calc_daily_returns] with its containers in a store *)

(** The method builds two containers, the list [dailyReturns] and the dict
    [lastValues], and updates them in place.  Here they are objects of a
    store, which maps the references in use to the objects they denote;
    [[]] and [dict()] make a new object at a reference not in use.  Whatever
    else the program has built (the containers of an earlier pass, say) is in
    the store as well. *)
Inductive container : Type :=
| ListObject (l : list num)
| DictObject (d : gmap nat float).

Abbreviation Store := (gmap nat container).

Definition new_object (store : Store) (o : container) : Store * nat :=
  let ref := fresh (dom store : gset nat) in (<[ref := o]> store, ref).

(** [d.get(key)] *)
Definition dict_get (store : Store) (ref key : nat) : option float :=
  match store !! ref with
  | Some (DictObject d) => d !! key
  | _ => None
  end.

(** [d[key] = value] *)
Definition dict_set (store : Store) (ref key : nat) (value : float) : Store :=
  match store !! ref with
  | Some (DictObject d) => <[ref := DictObject (<[key := value]> d)]> store
  | _ => store
  end.

(** [l.append(x)] *)
Definition list_append (store : Store) (ref : nat) (x : num) : Store :=
  match store !! ref with
  | Some (ListObject l) => <[ref := ListObject (l ++ [x])]> store
  | _ => store
  end.

(** Lines 37-50, [lastValues] being a reference. *)
Fixpoint series_loop_in (store : Store) (lastValues : nat) (cells : Row)
    (seriesIdx : nat) (totalROC : num) (numCounted : Z)
    : Store * result (num * Z) :=
  match cells with
  | [] => (store, Ok (totalROC, numCounted))
  | cell :: rest =>
    match dict_get store lastValues seriesIdx with
    | None =>
      if negb (is_nan cell) then
        series_loop_in (dict_set store lastValues seriesIdx cell) lastValues
                       rest (S seriesIdx) totalROC (numCounted + 1)
      else series_loop_in store lastValues rest (S seriesIdx)
                          totalROC numCounted
    | Some prevValue =>
      if negb (is_nan cell) then
        let store' := dict_set store lastValues seriesIdx cell in
        match (totalROC +
               (NpFloat cell - NpFloat prevValue) / NpFloat prevValue)%py with
        | Ok totalROC' =>
          series_loop_in store' lastValues rest (S seriesIdx)
                         totalROC' (numCounted + 1)
        | Raise e => (store', Raise e)
        end
      else series_loop_in store lastValues rest (S seriesIdx)
                          totalROC numCounted
    end
  end.

(** Lines 27-52, both containers being references. *)
Fixpoint days_loop_in (store : Store) (lastValues dailyReturns : nat)
    (rows : PriceTable) : Store * result unit :=
  match rows with
  | [] => (store, Ok tt)
  | row :: rest =>
    match series_loop_in store lastValues row 0 (PyInt 0) 0 with
    | (store', Ok (totalROC, numCounted)) =>
      match (totalROC / PyInt numCounted)%py with
      | Ok r =>
        days_loop_in (list_append store' dailyReturns r)
                     lastValues dailyReturns rest
      | Raise e => (store', Raise e)
      end
    | (store', Raise e) => (store', Raise e)
    end
  end.

(** Lines 20-54: the method returns the reference of its list. *)
Definition calc_daily_returns_in (store : Store) (self : CompareMetrics)
    : Store * result nat :=
  let '(store, dailyReturns) := new_object store (ListObject []) in
  let '(store, lastValues) := new_object store (DictObject ∅) in
  match days_loop_in store lastValues dailyReturns (portfolio self) with
  | (store, Ok _) => (store, Ok dailyReturns)
  | (store, Raise e) => (store, Raise e)
  end.

(** ** A [pow] to run examples with *)

(** Integer powers by repeated multiplication, for evaluating the model on
    concrete tables.  It agrees with the C library at the exponents 0, 1 and
    on exact products; the theorems below hold for every [libm_pow]. *)
Fixpoint product_power (v : float) (n : nat) : float :=
  match n with
  | O => 1%float
  | S k => (v * product_power v k)%float
  end.

Definition example_pow (v w : float) : float :=
  if (w =? 2)%float then (v * v)%float else
  match Prim2SF w with
  | S754_zero _ => 1%float
  | S754_finite s m e =>
    if (0 <=? e) || (Z.pos m mod 2 ^ (- e) =? 0) then
      let n := if 0 <=? e then Z.pos m * 2 ^ e else Z.pos m / 2 ^ (- e) in
      let p := product_power v (Z.to_nat n) in
      if s then (1 / p)%float else p
    else nan
  | _ => nan
  end.

(** ** A mean to run examples with *)

(** The sum of the values that are not NaN, taken left to right, over their
    number.  It is what [Series.mean()] returns on columns of fewer than
    eight entries and on columns whose partial sums are exact; the theorems
    below hold for every [series_mean]. *)
Definition example_mean (column : list float) : float :=
  (row_sum column / nearest_float (len (List.filter observed column)))%float.

(** ** Example objects *)

Definition object_of (table : PriceTable) : CompareMetrics :=
  match with_series table with
  | Ok self => self
  | Raise _ => bare table
  end.

(** 800 days of one asset whose price cycles through 100, 101, ..., 106. *)
Definition cycling_table : PriceTable :=
  map (fun k : nat => [nearest_float (100 + Z.of_nat k mod 7)]) (seq 0 800).

(** Its first 797 days: every offset of the sweep is inside the table. *)
Definition table_797 : PriceTable := take 797 cycling_table.

(** The table of the end-to-end scenario: three days, two assets. *)
Definition small_table : PriceTable :=
  [[100; 200]; [110; 190]; [121; 0x1.91ccccccccccdp+7]]%float.

(** 252 days of two assets; the first asset is missing on the last day
    and the second on the first day. *)
Definition disjoint_table : PriceTable :=
  ([1; nan] :: repeat [1; 1] 250 ++ [[nan; 1]])%float.

(** Two days of one asset whose price is 0. *)
Definition zero_table : PriceTable := [[0]; [0]]%float.

(** * Specification-side definitions *)

(** ** Daily returns *)

(** The percent changes a row contributes: one per cell that is observed and
    whose column has a last observed price in [lastValues]. *)
Fixpoint changes (cells : Row) (seriesIdx : nat)
    (lastValues : gmap nat float) : list num :=
  match cells with
  | [] => []
  | cell :: rest =>
    match lastValues !! seriesIdx with
    | Some prev =>
      if observed cell
      then NpFloat ((cell - prev) / prev) :: changes rest (S seriesIdx) lastValues
      else changes rest (S seriesIdx) lastValues
    | None => changes rest (S seriesIdx) lastValues
    end
  end.

(** The last observed prices after a row: every observed cell replaces the
    entry of its column. *)
Fixpoint record_prices (cells : Row) (seriesIdx : nat)
    (lastValues : gmap nat float) : gmap nat float :=
  match cells with
  | [] => lastValues
  | cell :: rest =>
    record_prices rest (S seriesIdx)
      (if observed cell then <[seriesIdx := cell]> lastValues else lastValues)
  end.

(** The number of observed cells of a row. *)
Definition count_observed (cells : Row) : Z :=
  len (List.filter observed cells).

(** The last observed price of column [j] among the days before day [k]. *)
Fixpoint last_observed (table : PriceTable) (k j : nat) : option float :=
  match k with
  | O => None
  | S k' =>
    match table !! k' with
    | Some row =>
      match row !! j with
      | Some cell =>
        if observed cell then Some cell else last_observed table k' j
      | None => last_observed table k' j
      end
    | None => last_observed table k' j
    end
  end.

(** The percent changes of a row against the prices [prior] gives for its
    columns: one per cell that is observed and whose column has a prior
    price. *)
Fixpoint row_changes (prior : nat -> option float) (cells : Row)
    (seriesIdx : nat) : list num :=
  match cells with
  | [] => []
  | cell :: rest =>
    match prior seriesIdx with
    | Some prev =>
      if observed cell
      then NpFloat ((cell - prev) / prev) :: row_changes prior rest (S seriesIdx)
      else row_changes prior rest (S seriesIdx)
    | None => row_changes prior rest (S seriesIdx)
    end
  end.

(** The daily return of day [k] of a table: the sum of the percent changes of
    its row against the last observed prices, over the number of observed
    cells of the row. *)
Definition day_return (table : PriceTable) (k : nat) : result num :=
  match table !! k with
  | Some row =>
    (py_sum (row_changes (last_observed table k) row 0) /
     PyInt (count_observed row))%py
  | None => Raise IndexError
  end.

(** The remembered prices when day [k] starts: the rows before it, passed in
    order from no price at all. *)
Definition prices_before (table : PriceTable) (k : nat) : gmap nat float :=
  fold_left (fun lastValues row => record_prices row 0 lastValues)
            (take k table) ∅.

(** A running sum of numpy.float64 terms: still the int 0 it started from,
    or a numpy.float64. *)
Definition sum_kind (t : num) : Prop :=
  t = PyInt 0 \/ exists f, t = NpFloat f.

(** A float of either kind. *)
Definition is_float (x : num) : bool :=
  match x with PyInt _ => false | _ => true end.

(** The outcome of a quotient at a zero denominator, by the kind of its
    numerator: a numpy.float64 numerator gives a numpy.float64 that is NaN or
    infinite, a Python number raises. *)
Definition zero_division_outcome (numerator : num) (r : result num) : Prop :=
  match numerator with
  | NpFloat _ =>
    exists f, r = Ok (NpFloat f) /\ (is_nan f || is_infinity f) = true
  | _ => r = Raise ZeroDivisionError
  end.

(** The exception of the first call that raises, in call order. *)
Fixpoint first_raised {A} (calls : list (result A)) : option exn :=
  match calls with
  | [] => None
  | Ok _ :: rest => first_raised rest
  | Raise e :: _ => Some e
  end.

(** ** The two ratios *)

(** Rows 0 through [k] inclusive of a series. *)
Definition rows_through {A} (k : Z) (series : list A) : list A :=
  take (Z.to_nat (k + 1)) series.

Section RatioFormulas.

Variable libm_pow : float -> float -> float.
Variable series_mean : list float -> float.

Notation "a ** n" := (bind a (fun x => py_pow libm_pow x n))
  (at level 30, right associativity) : py_scope.

(** (0.0426 / 252) x scale. *)
Definition risk_free_rate (scale : Z) : result num :=
  (PyFloat treasury_rate / PyInt 252 * PyInt scale)%py.

Definition arithmetic_mean (l : list num) : result num :=
  (py_sum l / PyInt (len l))%py.

(** (1 + daily)^scale - 1. *)
Definition compounded (daily : num) (scale : Z) : result num :=
  (((PyInt 1 + daily) ** scale) - PyInt 1)%py.

(** The standard deviation that divides by the count. *)
Definition population_stdev (l : list num) : result num :=
  m ← arithmetic_mean l;
  squares ← comprehension (fun x : num => ((x - m) ** 2)%py) l;
  variance ← (py_sum squares / PyInt (len l))%py;
  math_sqrt variance.

(** ((1 + mean)^scale - 1 - rate) / (stdev x scale), the rate first as the
    source computes it. *)
Definition sharpe_formula (prefix : list num) (scale : Z) : result num :=
  rate ← risk_free_rate scale;
  m ← arithmetic_mean prefix;
  period_return ← compounded m scale;
  stdev ← population_stdev prefix;
  period_stdev ← (stdev * PyInt scale)%py;
  ((period_return - rate) / period_stdev)%py.

(** The percent changes from [init] to [target] of the assets observed in
    both rows. *)
Definition window_changes (target init : Row) : list num :=
  map (fun p : float * float => NpFloat ((p.1 - p.2) / p.2))
      (List.filter (fun p : float * float => observed p.1 && observed p.2)
                   (zip target init)).

(** The root of the summed squares of the drawdowns (v - peak) / peak. *)
Definition drawdown_formula (values : list float) : result num :=
  peak ← py_max values;
  drawdowns ← comprehension
    (fun v => (PyFloat v - PyFloat peak) / PyFloat peak)%py values;
  squares ← comprehension (fun d : num => (d ** 2)%py) drawdowns;
  total ← py_sum squares;
  math_sqrt total.

(** (period return - rate) / drawdown denominator, at the scale 252. *)
Definition burke_formula (period_return : num) (values : list float)
    : result num :=
  rate ← risk_free_rate 252;
  excess ← (period_return - rate)%py;
  denom ← drawdown_formula values;
  (excess / denom)%py.

(** The Pearson coefficient of two float64 columns, every operation the
    binary64 one: the sum of the products of the deviations over the root of
    the product of the two sums of squared deviations. *)
Definition pearson_formula (X Y : list float) : result num :=
  let mx := series_mean X in
  let my := series_mean Y in
  sxy ← py_sum (zip_with (fun x y => NpFloat ((x - mx) * (y - my))) X Y);
  sxx ← py_sum (map (fun x => NpFloat (libm_pow (x - mx) 2)) X);
  syy ← py_sum (map (fun y => NpFloat (libm_pow (y - my) 2)) Y);
  product ← py_mul sxx syy;
  denominator ← math_sqrt product;
  py_truediv sxy denominator.

(** Neither ratio raises at the offset [i]. *)
Definition returns_both (self : CompareMetrics) (i : Z) : bool :=
  negb (raises (sharpe_ratio libm_pow self i 252)) &&
  negb (raises (my_metric libm_pow self i 252)).

(** The ratio calls of a sweep in the order it makes them: at each offset
    the Sharpe ratio, then the Burke ratio. *)
Definition ratio_calls (self : CompareMetrics) (numGenerate : list Z)
    : list (result num) :=
  flat_map (fun i => [sharpe_ratio libm_pow self i 252;
                      my_metric libm_pow self i 252]) numGenerate.

End RatioFormulas.

(** ** Further notions used by the properties of the code *)

(** The outcome is not an [IndexError]. *)
Definition no_index_error {A} (m : result A) : Prop := m <> Raise IndexError.

(** The percent changes from the row [prev] to the row [cur], column by
    column. *)
Definition day_changes (cur prev : Row) : list num :=
  zip_with (fun c p => NpFloat ((c - p) / p)) cur prev.

(** The object with the two columns of its frame exchanged. *)
Definition swap_columns (self : CompareMetrics) : CompareMetrics :=
  {| portfolio := portfolio self;
     daily_returns := daily_returns self;
     daily_values := daily_values self;
     compareMetrics := {| index := index (compareMetrics self);
                          Sharpe := Burke (compareMetrics self);
                          Burke := Sharpe (compareMetrics self) |} |}.

(** The remembered price of column [j] after a row: the cell of the row when
    it is observed, the earlier price otherwise. *)
Definition carried (lastValues : gmap nat float) (row : Row) (j : nat)
    : option float :=
  match row !! j with
  | Some cell => if observed cell then Some cell else lastValues !! j
  | None => lastValues !! j
  end.

(** * Properties *)

(** ** Arithmetic of the three kinds *)

Lemma float_of_int_0 : float_of_int 0 = Ok 0%float.
Proof. reflexivity. Qed.

Lemma np_sub (a b : float) :
  py_sub (NpFloat a) (NpFloat b) = Ok (NpFloat (a - b)).
Proof. reflexivity. Qed.

Lemma np_mul (a b : float) :
  py_mul (NpFloat a) (NpFloat b) = Ok (NpFloat (a * b)).
Proof. reflexivity. Qed.

Lemma np_truediv (a b : float) :
  py_truediv (NpFloat a) (NpFloat b) = Ok (NpFloat (a / b)).
Proof. reflexivity. Qed.

Lemma np_change (c p : float) :
  ((NpFloat c - NpFloat p) / NpFloat p)%py = Ok (NpFloat ((c - p) / p)).
Proof. reflexivity. Qed.

Lemma sum_kind_add (t : num) (c : float) :
  sum_kind t -> exists f, py_add t (NpFloat c) = Ok (NpFloat f).
Proof.
  intros [-> | [f ->]]; eexists; reflexivity.
Qed.

Lemma sum_kind_np (f : float) : sum_kind (NpFloat f).
Proof. right; eauto. Qed.

Lemma sum_kind_0 : sum_kind (PyInt 0).
Proof. now left. Qed.

Create HintDb risk.
#[local] Hint Resolve sum_kind_np sum_kind_0 : risk.

(** ** The pass over one row *)

Lemma changes_insert_lt (cells : Row) :
  forall (i j : nat) (c : float) (lv : gmap nat float),
    (j < i)%nat -> changes cells i (<[j := c]> lv) = changes cells i lv.
Proof.
  induction cells as [|cell rest IH]; intros i j c lv Hlt; [reflexivity|].
  simpl. rewrite lookup_insert_ne by lia.
  rewrite !(IH (S i) j c lv) by lia. reflexivity.
Qed.

Lemma count_observed_cons (cell : float) (rest : Row) :
  count_observed (cell :: rest) =
  (if observed cell then 1 else 0) + count_observed rest.
Proof.
  unfold count_observed, len. simpl. destruct (observed cell); simpl; lia.
Qed.

Lemma count_observed_nonneg (cells : Row) : 0 <= count_observed cells.
Proof. unfold count_observed, len. lia. Qed.

Lemma series_loop_spec (cells : Row) :
  forall (i : nat) (lv : gmap nat float) (t : num) (n : Z),
    sum_kind t ->
    exists t',
      sum_from t (changes cells i lv) = Ok t' /\
      sum_kind t' /\
      series_loop cells i lv t n =
        Ok (record_prices cells i lv, t', n + count_observed cells).
Proof.
  induction cells as [|cell rest IH]; intros i lv t n Ht.
  - exists t. simpl. unfold count_observed, len. simpl.
    rewrite Z.add_0_r. auto.
  - simpl. rewrite count_observed_cons. unfold observed.
    destruct (lv !! i) as [prev|] eqn:Hprev; destruct (is_nan cell) eqn:Hnan;
      simpl.
    + destruct (IH (S i) lv t n Ht) as (t' & Hs & Hk & Hl).
      exists t'. rewrite Hl. auto.
    + destruct (sum_kind_add t ((cell - prev) / prev) Ht) as [f Hf].
      destruct (IH (S i) (<[i := cell]> lv) (NpFloat f) (n + 1))
        as (t' & Hs & Hk & Hl); [auto with risk|].
      rewrite changes_insert_lt in Hs by lia.
      exists t'. rewrite Hf. simpl. rewrite Hl, Z.add_assoc. auto.
    + destruct (IH (S i) lv t n Ht) as (t' & Hs & Hk & Hl).
      exists t'. rewrite Hl. auto.
    + destruct (IH (S i) (<[i := cell]> lv) t (n + 1) Ht)
        as (t' & Hs & Hk & Hl).
      rewrite changes_insert_lt in Hs by lia.
      exists t'. rewrite Hl, Z.add_assoc. auto.
Qed.

(** The body of the day loop, in closed form: the row's return is the sum of
    its percent changes over the number of its observed cells. *)
Lemma daily_return_formula (lv : gmap nat float) (row : Row) :
  daily_return lv row =
    (r ← (py_sum (changes row 0 lv) / PyInt (count_observed row))%py;
     Ok (record_prices row 0 lv, r)).
Proof.
  unfold daily_return, py_sum.
  destruct (series_loop_spec row 0%nat lv (PyInt 0) 0 sum_kind_0)
    as (t & Hs & _ & Hl).
  rewrite Hl, Hs. reflexivity.
Qed.

Lemma int_zero_over (n : Z) :
  0 < n -> py_truediv (PyInt 0) (PyInt n) = Ok (PyFloat 0).
Proof.
  intros Hn. unfold py_truediv, int_truediv.
  destruct (Z.eqb_spec n 0) as [->|_]; [lia|].
  destruct n as [|p|p]; try lia. reflexivity.
Qed.

Lemma count_observed_pos (cells : Row) :
  1 <= count_observed cells <-> existsb observed cells = true.
Proof.
  induction cells as [|cell rest IH].
  - unfold count_observed, len. simpl. split; [lia | discriminate].
  - rewrite count_observed_cons. simpl.
    pose proof (count_observed_nonneg rest).
    destruct (observed cell); simpl; [split; [reflexivity | lia]|].
    rewrite <- IH. lia.
Qed.

Lemma changes_none_observed (cells : Row) :
  forall (i : nat) (lv : gmap nat float),
    count_observed cells = 0 -> changes cells i lv = [].
Proof.
  induction cells as [|cell rest IH]; intros i lv Hc; [reflexivity|].
  rewrite count_observed_cons in Hc.
  pose proof (count_observed_nonneg rest).
  simpl. destruct (observed cell); [lia|].
  destruct (lv !! i); apply IH; lia.
Qed.

(** A sum of numpy.float64 terms over an int never raises
    [ZeroDivisionError]: it is a float, or the int does not fit one. *)
Lemma sum_over_count (t : num) (n : Z) :
  sum_kind t -> 0 < n ->
  py_truediv t (PyInt n) <> Raise ZeroDivisionError.
Proof.
  intros [-> | [f ->]] Hn.
  - rewrite int_zero_over by assumption. discriminate.
  - unfold py_truediv. simpl. unfold float_of_int.
    destruct (is_infinity (nearest_float n)); discriminate.
Qed.

Lemma daily_return_raises (lv : gmap nat float) (row : Row) :
  daily_return lv row = Raise ZeroDivisionError <-> count_observed row = 0.
Proof.
  rewrite daily_return_formula. unfold py_sum.
  destruct (series_loop_spec row 0%nat lv (PyInt 0) 0 sum_kind_0)
    as (t & Hs & Hk & _).
  split.
  - intros Hr. pose proof (count_observed_nonneg row) as Hge.
    destruct (Z.eq_dec (count_observed row) 0) as [|Hne]; [assumption|].
    exfalso. rewrite Hs in Hr. simpl in Hr.
    apply (sum_over_count t (count_observed row) Hk); [lia|].
    destruct (py_truediv t (PyInt (count_observed row))); [discriminate|].
    simpl in Hr. injection Hr as ->. reflexivity.
  - intros H0. rewrite (changes_none_observed row 0%nat lv H0), H0.
    reflexivity.
Qed.

(** ** The loop over days *)

Lemma days_loop_length (rows : PriceTable) :
  forall (lv : gmap nat float) (acc dr : list num),
    days_loop rows lv acc = Ok dr ->
    length dr = (length acc + length rows)%nat.
Proof.
  induction rows as [|row rest IH]; intros lv acc dr H; simpl in H.
  - injection H as <-. simpl. lia.
  - destruct (daily_return lv row) as [[lv' r]|e]; [|discriminate].
    simpl in H. apply IH in H. rewrite H, length_app. simpl. lia.
Qed.


(** C1, the claim as stated fails: a first row with one observed price is
    counted once, and its return is the float 0.0, not an undefined value. *)
Lemma first_row_is_counted :
  series_loop [100%float] 0 ∅ (PyInt 0) 0 = Ok ({[ 0%nat := 100%float ]}, PyInt 0, 1) /\
  calc_daily_returns (bare [[100%float]]) = Ok [PyFloat 0].
Proof. split; reflexivity. Qed.

(** C9: the denominator of a row's division is the number of its observed
    cells, whether or not they have a prior observed price; it is at least 1
    exactly when the row has an observed cell, and the division raises
    [ZeroDivisionError] exactly when every cell of the row is missing. *)
Theorem denominator_counts_observed_cells :
  forall (lastValues : gmap nat float) (row : Row),
    (exists lastValues' totalROC,
       series_loop row 0 lastValues (PyInt 0) 0 =
         Ok (lastValues', totalROC, count_observed row)) /\
    (1 <= count_observed row <-> existsb observed row = true) /\
    (daily_return lastValues row = Raise ZeroDivisionError <->
     forallb is_nan row = true).
Proof.
  intros lv row. split; [|split].
  - destruct (series_loop_spec row 0%nat lv (PyInt 0) 0 sum_kind_0)
      as (t & _ & _ & Hl).
    eauto.
  - apply count_observed_pos.
  - rewrite daily_return_raises.
    pose proof (count_observed_pos row) as Hp.
    pose proof (count_observed_nonneg row) as Hge.
    assert (Hb : forallb is_nan row = negb (existsb observed row)).
    { clear. induction row as [|c r IH]; [reflexivity|].
      simpl. rewrite IH. unfold observed. now destruct (is_nan c). }
    rewrite Hb. destruct (existsb observed row); simpl.
    + split; [|discriminate]. intros H0. destruct Hp as [_ Hp].
      specialize (Hp eq_refl). lia.
    + split; [reflexivity|]. intros _.
      destruct (Z.eq_dec (count_observed row) 0) as [|Hne]; [assumption|].
      assert (1 <= count_observed row) as H1 by lia.
      apply Hp in H1. discriminate.
Qed.

(** ** The pass in a store *)

Lemma series_loop_in_spec (cells : Row) :
  forall (store : Store) (lv i : nat) (d : gmap nat float) (t : num) (n : Z),
    store !! lv = Some (DictObject d) ->
    exists store' d',
      series_loop_in store lv cells i t n =
        (store', '(_, t', n') ← series_loop cells i d t n; Ok (t', n')) /\
      store' !! lv = Some (DictObject d') /\
      (forall ref, ref <> lv -> store' !! ref = store !! ref) /\
      (forall d'' t' n',
         series_loop cells i d t n = Ok (d'', t', n') -> d' = d'').
Proof.
  induction cells as [|cell rest IH]; intros store lv i d t n Hlv.
  - exists store, d. simpl. repeat split; auto. now intros ? ? ? [= <- _ _].
  - assert (Hset : forall c,
              let store1 := dict_set store lv i c in
              store1 !! lv = Some (DictObject (<[i := c]> d)) /\
              forall ref, ref <> lv -> store1 !! ref = store !! ref).
    { intros c. unfold dict_set. rewrite Hlv. split.
      - apply lookup_insert_eq.
      - intros ref Hne. now apply lookup_insert_ne. }
    cbn [series_loop_in series_loop]. unfold dict_get. rewrite Hlv.
    destruct (d !! i) as [prev|]; destruct (negb (is_nan cell)).
    + destruct (Hset cell) as [H1 Hframe].
      destruct (_ + _)%py as [t1|e].
      * destruct (IH _ lv (S i) _ t1 (n + 1) H1)
          as (store' & d' & Hrun & Hd & Hf & Hfin).
        exists store', d'. cbn [bind]. repeat split; auto.
        intros ref Hne. rewrite Hf, Hframe; auto.
      * exists (dict_set store lv i cell), (<[i := cell]> d). cbn [bind].
        repeat split; auto. discriminate.
    + now apply IH.
    + destruct (Hset cell) as [H1 Hframe].
      destruct (IH _ lv (S i) _ t (n + 1) H1)
        as (store' & d' & Hrun & Hd & Hf & Hfin).
      exists store', d'. repeat split; auto.
      intros ref Hne. rewrite Hf, Hframe; auto.
    + now apply IH.
Qed.

Lemma days_loop_in_spec (rows : PriceTable) :
  forall (store : Store) (lv dr : nat) (d : gmap nat float) (acc : list num),
    lv <> dr ->
    store !! lv = Some (DictObject d) ->
    store !! dr = Some (ListObject acc) ->
    exists store' acc',
      days_loop_in store lv dr rows =
        (store', _ ← days_loop rows d acc; Ok tt) /\
      store' !! dr = Some (ListObject acc') /\
      (forall ref, ref <> lv -> ref <> dr -> store' !! ref = store !! ref) /\
      (forall final, days_loop rows d acc = Ok final -> acc' = final).
Proof.
  induction rows as [|row rest IH]; intros store lv dr d acc Hne Hlv Hdr.
  - exists store, acc. simpl. repeat split; auto. now intros ? [= <-].
  - cbn [days_loop_in days_loop]. unfold daily_return.
    destruct (series_loop_in_spec row store lv 0 d (PyInt 0) 0 Hlv)
      as (store1 & d1 & Hrun & Hd1 & Hf1 & Hfin1).
    rewrite Hrun.
    destruct (series_loop row 0 d (PyInt 0) 0) as [[[d'' t] n]|e];
      cbn [bind].
    + rewrite (Hfin1 d'' t n eq_refl) in Hd1. clear Hfin1.
      destruct (t / PyInt n)%py as [r|e]; cbn [bind].
      * assert (Hdr1 : store1 !! dr = Some (ListObject acc))
          by (rewrite Hf1; auto).
        destruct (IH (list_append store1 dr r) lv dr d'' (acc ++ [r]) Hne)
          as (store' & acc' & Hrest & Hacc & Hf & Hfin).
        { unfold list_append. rewrite Hdr1.
          rewrite lookup_insert_ne by auto. exact Hd1. }
        { unfold list_append. rewrite Hdr1. apply lookup_insert_eq. }
        exists store', acc'. repeat split; auto.
        intros ref Hl Hd. rewrite Hf by auto.
        unfold list_append. rewrite Hdr1.
        rewrite lookup_insert_ne by auto. now apply Hf1.
      * exists store1, acc. repeat split; auto.
        -- rewrite Hf1; auto.
        -- discriminate.
    + exists store1, acc. repeat split; auto.
      * rewrite Hf1; auto.
      * discriminate.
Qed.

(** One pass in a store: it touches no object that was there before, and the
    list it returns is a new object holding the series of the table. *)
Lemma calc_daily_returns_in_spec (self : CompareMetrics) (store : Store) :
  exists store' outcome,
    calc_daily_returns_in store self = (store', outcome) /\
    (forall ref, ref ∈ dom store -> store' !! ref = store !! ref) /\
    match calc_daily_returns self with
    | Ok dailyReturns =>
      exists ref,
        outcome = Ok ref /\ (ref ∉ dom store) /\
        store' !! ref = Some (ListObject dailyReturns)
    | Raise e => outcome = Raise e
    end.
Proof.
  unfold calc_daily_returns_in, new_object, calc_daily_returns.
  set (dr := fresh (dom store)).
  set (store1 := <[dr := ListObject []]> store).
  set (lv := fresh (dom store1)).
  set (store2 := <[lv := DictObject ∅]> store1).
  assert (Hdr : dr ∉ dom store) by apply is_fresh.
  assert (Hlv : lv ∉ dom store1) by apply is_fresh.
  assert (Hne : lv <> dr).
  { intros ->. apply Hlv. subst store1. rewrite dom_insert. set_solver. }
  destruct (days_loop_in_spec (portfolio self) store2 lv dr ∅ [] Hne)
    as (store' & acc' & Hrun & Hacc & Hf & Hfin).
  { subst store2. apply lookup_insert_eq. }
  { subst store2 store1. rewrite lookup_insert_ne by auto.
    apply lookup_insert_eq. }
  assert (Hframe : forall ref, ref ∈ dom store -> store' !! ref = store !! ref).
  { intros ref Hin.
    assert (ref <> dr) by (intros ->; contradiction).
    assert (ref <> lv).
    { intros ->. apply Hlv. subst store1. rewrite dom_insert. set_solver. }
    rewrite Hf by auto. subst store2 store1.
    now rewrite !lookup_insert_ne by auto. }
  rewrite Hrun.
  destruct (days_loop (portfolio self) ∅ []) as [final|e]; cbn [bind].
  - exists store', (Ok dr). repeat split; auto.
    exists dr. repeat split; auto. now rewrite <- (Hfin final eq_refl).
  - exists store', (Raise e). repeat split; auto.
Qed.

(** C10: deriving the series twice, one pass after the other, in any store:
    both passes have the outcome of the table alone, whatever the store held
    before; when they return, each returns a list of its own, and after the
    second pass both lists hold the same series; and no object that existed
    before the passes is changed.  The price dict of a pass is made anew by
    the pass, so the dict the first pass left behind is not read by the
    second. *)
Theorem calc_daily_returns_is_local :
  forall (self : CompareMetrics) (store : Store),
    let '(store1, first) := calc_daily_returns_in store self in
    let '(store2, second) := calc_daily_returns_in store1 self in
    (forall ref, ref ∈ dom store -> store2 !! ref = store !! ref) /\
    match calc_daily_returns self with
    | Ok dailyReturns =>
      exists ref1 ref2,
        first = Ok ref1 /\ second = Ok ref2 /\ ref1 <> ref2 /\
        store2 !! ref1 = Some (ListObject dailyReturns) /\
        store2 !! ref2 = Some (ListObject dailyReturns)
    | Raise e => first = Raise e /\ second = Raise e
    end.
Proof.
  intros self store.
  destruct (calc_daily_returns_in_spec self store)
    as (store1 & first & -> & Hf1 & H1).
  destruct (calc_daily_returns_in_spec self store1)
    as (store2 & second & -> & Hf2 & H2).
  assert (Hdom : forall ref, ref ∈ dom store -> ref ∈ dom store1).
  { intros ref Hin. apply elem_of_dom. rewrite Hf1 by assumption.
    now apply elem_of_dom. }
  split.
  - intros ref Hin. rewrite Hf2 by auto. now apply Hf1.
  - destruct (calc_daily_returns self) as [dr|e]; [|auto].
    destruct H1 as (ref1 & -> & Hnew1 & Hl1).
    destruct H2 as (ref2 & -> & Hnew2 & Hl2).
    assert (Hin1 : ref1 ∈ dom store1) by (apply elem_of_dom; eauto).
    exists ref1, ref2. repeat split; auto.
    + intros ->. contradiction.
    + rewrite Hf2 by assumption. exact Hl1.
Qed.

(** ** Slices and positions *)

Lemma slice_to_nonneg {A} (l : list A) (k : Z) :
  0 <= k -> slice_to l k = take (Z.to_nat k) l.
Proof.
  intros Hk. unfold slice_to, len.
  destruct (Z.ltb_spec k 0) as [|_]; [lia|].
  destruct (Z.le_gt_cases k (Z.of_nat (length l))) as [Hle|Hgt].
  - rewrite Z.min_l by assumption. reflexivity.
  - rewrite Z.min_r by lia. rewrite Nat2Z.id.
    rewrite !take_ge by lia. reflexivity.
Qed.

Lemma slice_to_rows_through {A} (l : list A) (k : Z) :
  0 <= k -> slice_to l (k + 1) = rows_through k l.
Proof. intros Hk. unfold rows_through. apply slice_to_nonneg. lia. Qed.

Lemma iloc_inside {A} (l : list A) (i : Z) :
  0 <= i < len l ->
  exists a, l !! Z.to_nat i = Some a /\ iloc l i = Ok a.
Proof.
  intros [H0 Hlt]. unfold iloc.
  destruct (Z.ltb_spec i 0) as [|_]; [lia|].
  destruct (Z.leb_spec 0 i) as [_|]; [|lia].
  destruct (Z.ltb_spec i (len l)) as [_|]; [|lia]. simpl.
  destruct (lookup_lt_is_Some_2 l (Z.to_nat i)) as [a Ha];
    [unfold len in Hlt; lia|].
  exists a. rewrite Ha. auto.
Qed.

(** ** The maximum of a list of floats *)

(** The order of binary64 is lexicographic on sign, exponent and mantissa, so
    once [a < b], whatever is not above [a] is not above [b]. *)
Lemma SFltb_above (a b c : spec_float) :
  SFltb a b = true -> SFltb a c = false -> SFltb b c = false.
Proof.
  unfold SFltb, SFcompare.
  destruct a as [sa|sa| |sa ma ea], b as [sb|sb| |sb mb eb],
           c as [sc|sc| |sc mc ec];
    try destruct sa; try destruct sb; try destruct sc;
    try discriminate; try reflexivity;
    change (Pos.compare_cont Eq) with Pos.compare;
    destruct (Z.compare_spec ea eb); try discriminate;
    destruct (Z.compare_spec ea ec); try discriminate;
    destruct (Z.compare_spec eb ec); try reflexivity; try lia;
    subst;
    destruct (Pos.compare_spec ma mb); try discriminate;
    destruct (Pos.compare_spec ma mc); try discriminate;
    destruct (Pos.compare_spec mb mc); simpl; try reflexivity;
    try discriminate; try lia.
Qed.

Lemma ltb_above (a b c : float) :
  (a <? b)%float = true -> (a <? c)%float = false -> (b <? c)%float = false.
Proof. rewrite !ltb_spec. apply SFltb_above. Qed.

Lemma ltb_irrefl (a : float) : (a <? a)%float = false.
Proof.
  rewrite ltb_spec. unfold SFltb, SFcompare.
  destruct (Prim2SF a) as [s|s| |s m e]; try destruct s; try reflexivity;
    rewrite Z.compare_refl; change (Pos.compare_cont Eq) with Pos.compare;
    rewrite Pos.compare_refl; reflexivity.
Qed.

Lemma max_from_spec (l : list float) :
  forall (m : float) (seen : list float),
    In m seen ->
    (forall y, In y seen -> (m <? y)%float = false) ->
    In (max_from m l) (seen ++ l) /\
    forall y, In y (seen ++ l) -> (max_from m l <? y)%float = false.
Proof.
  induction l as [|x rest IH]; intros m seen Hm Hseen.
  - simpl. rewrite app_nil_r. auto.
  - simpl. replace (seen ++ x :: rest) with ((seen ++ [x]) ++ rest)
      by (rewrite <- app_assoc; reflexivity).
    destruct (m <? x)%float eqn:Hlt; apply IH.
    + apply List.in_or_app. right. now left.
    + intros y Hy. apply List.in_app_or in Hy as [Hy | [<- | []]].
      * now apply (ltb_above m x y Hlt), Hseen.
      * apply ltb_irrefl.
    + apply List.in_or_app. now left.
    + intros y Hy. apply List.in_app_or in Hy as [Hy | [<- | []]]; auto.
Qed.

(** [max] returns an element of the list that no element compares greater
    than. *)
Lemma py_max_spec (l : list float) (peak : float) :
  py_max l = Ok peak ->
  In peak l /\ forall v, In v l -> (peak <? v)%float = false.
Proof.
  destruct l as [|x rest]; [discriminate|]. intros [= <-].
  apply (max_from_spec rest x [x]).
  - now left.
  - intros y [<- | []]. apply ltb_irrefl.
Qed.

(** Runs a computation symbolically: each step that can raise is split into
    its two outcomes. *)
Ltac run := unfold lift2, ret_num; cbn [bind fst snd].

Ltac head_step m :=
  lazymatch m with
  | bind ?m' _ => head_step m'
  | _ => m
  end.

Ltac unbind :=
  repeat (run;
    lazymatch goal with
    | |- ?l = _ =>
      let h := head_step l in
      lazymatch h with
      | Ok _ => fail
      | Raise _ => fail
      | _ => destruct h
      end
    end);
  run; try reflexivity.

Section RatioProperties.

Variable libm_pow : float -> float -> float.

(** C4: for an offset inside the series, the Sharpe ratio is
    ((1 + mean)^scale - 1 - (0.0426/252) x scale) / (stdev x scale) of the
    daily returns of rows 0 through lastRowIndex - daysIn inclusive, where
    the standard deviation divides by the count and is scaled linearly. *)
Theorem sharpe_ratio_formula :
  forall (self : CompareMetrics) (daysin adjustedScale : Z),
    let lastRowIndex := len (daily_returns self) - 1 in
    0 <= daysin <= lastRowIndex ->
    sharpe_ratio libm_pow self daysin adjustedScale =
      sharpe_formula libm_pow
        (rows_through (lastRowIndex - daysin) (daily_returns self))
        adjustedScale.
Proof.
  intros self daysin scale lastRowIndex Hin. subst lastRowIndex.
  unfold sharpe_ratio, sharpe_formula.
  replace (len (daily_returns self) - daysin)
    with (len (daily_returns self) - 1 - daysin + 1) by lia.
  rewrite slice_to_rows_through by lia.
  set (prefix := rows_through _ _).
  change (sharpe_period_return libm_pow prefix scale)
    with (m ← arithmetic_mean prefix;
          c ← compounded libm_pow m scale; Ok (m, c)).
  unfold population_stdev.
  fold (risk_free_rate scale).
  destruct (risk_free_rate scale) as [rate|e]; [cbn [bind]|reflexivity].
  destruct (arithmetic_mean prefix) as [m|e]; [cbn [bind]|reflexivity].
  destruct (compounded libm_pow m scale) as [c|e]; [cbn [bind]|reflexivity].
  unbind.
Qed.

(** ** The Burke ratio *)

Lemma window_loop_spec (initCells : Row) :
  forall (i : nat) (targetDate : Row) (n : Z) (c : num),
    sum_kind c ->
    (i + length initCells <= length targetDate)%nat ->
    let terms := window_changes (drop i targetDate) initCells in
    exists c',
      sum_from c terms = Ok c' /\
      sum_kind c' /\
      window_loop initCells i targetDate n c = Ok (n + len terms, c').
Proof.
  induction initCells as [|init rest IH]; intros i target n c Hc Hlen terms.
  - exists c. subst terms. unfold window_changes.
    rewrite zip_with_nil_r. simpl. rewrite Z.add_0_r. auto.
  - simpl in Hlen.
    destruct (lookup_lt_is_Some_2 target i) as [t Ht]; [lia|].
    subst terms. rewrite (drop_S _ _ _ Ht). unfold window_changes.
    simpl. rewrite Ht.
    replace (negb (is_nan t || is_nan init))
      with (observed t && observed init)
      by (unfold observed; now rewrite negb_orb).
    destruct (observed t && observed init); simpl.
    + destruct (sum_kind_add c ((t - init) / init) Hc) as [f Hf].
      destruct (IH (S i) target (n + 1) (NpFloat f))
        as (c' & Hs & Hk & Hl); [auto with risk | lia |].
      exists c'. rewrite Hf. simpl. rewrite Hl.
      unfold window_changes in *. unfold len in *. simpl.
      repeat split; auto. do 2 f_equal. lia.
    + destruct (IH (S i) target n c Hc) as (c' & Hs & Hk & Hl); [lia|].
      exists c'. auto.
Qed.

Lemma risk_free_rate_252 :
  exists rate : float, risk_free_rate 252 = Ok (PyFloat rate).
Proof. eexists. vm_compute. reflexivity. Qed.

Lemma drawdown_denom_formula (self : CompareMetrics) (k : Z) :
  0 <= k ->
  drawdown_denom libm_pow self k =
    drawdown_formula libm_pow (rows_through k (daily_values self)).
Proof.
  intros Hk. unfold drawdown_denom, drawdown_formula.
  rewrite slice_to_rows_through by assumption. reflexivity.
Qed.

(** C5: for an offset inside a rectangular table, with the scale 252: when
    252 <= targetRowIndex + 1 the period return is the equal-weighted mean
    of (target - init) / init over the assets observed in the target row
    and in row targetRowIndex - 252 + 1; and in both branches the ratio is
    (periodReturn - riskFreeRatePeriod) over the root of the summed squared
    drawdowns (v - peak) / peak of the daily values of rows 0 through
    targetRowIndex, where peak is one of these values and none of them
    compares greater than it. *)
Theorem burke_ratio_formula :
  forall (self : CompareMetrics) (daysin adjustedScale : Z) (ncols : nat),
    let lastRowIndex := len (portfolio self) - 1 in
    let targetRowIndex := lastRowIndex - daysin in
    rectangular ncols (portfolio self) ->
    0 <= daysin <= lastRowIndex ->
    exists targetRow,
      portfolio self !! Z.to_nat targetRowIndex = Some targetRow /\
      (252 <= targetRowIndex + 1 ->
       exists initRow,
         portfolio self !! Z.to_nat (targetRowIndex - 252 + 1) = Some initRow /\
         period_returns libm_pow self targetRowIndex 252 targetRow =
           arithmetic_mean (window_changes targetRow initRow)) /\
      my_metric libm_pow self daysin adjustedScale =
        (periodReturn ←
           period_returns libm_pow self targetRowIndex 252 targetRow;
         burke_formula libm_pow periodReturn
           (rows_through targetRowIndex (daily_values self))) /\
      (forall peak : float,
         py_max (rows_through targetRowIndex (daily_values self)) = Ok peak ->
         In peak (rows_through targetRowIndex (daily_values self)) /\
         forall v : float,
           In v (rows_through targetRowIndex (daily_values self)) ->
           (peak <? v)%float = false).
Proof.
  intros self daysin scale ncols lastRowIndex idx Hrect Hin.
  subst lastRowIndex.
  destruct (iloc_inside (portfolio self) idx) as (target & Ht & Hiloc);
    [subst idx; lia|].
  exists target. split; [exact Ht|]. split; [|split].
  - intros Hwin. unfold period_returns.
    destruct (Z.leb_spec 252 (idx + 1)) as [_|]; [|lia].
    destruct (iloc_inside (portfolio self) (idx - 252 + 1))
      as (init & Hi & Hiloc'); [subst idx; lia|].
    exists init. split; [exact Hi|]. rewrite Hiloc'. run.
    pose proof (Forall_lookup_1 _ _ _ _ Hrect Ht) as Hlt.
    pose proof (Forall_lookup_1 _ _ _ _ Hrect Hi) as Hli.
    simpl in Hlt, Hli.
    destruct (window_loop_spec init 0%nat target 0 (PyInt 0) sum_kind_0)
      as (c & Hs & _ & Hl); [lia|].
    rewrite drop_0 in Hs, Hl. rewrite Hl. run.
    unfold arithmetic_mean, py_sum. rewrite Hs. run.
    rewrite Z.add_0_l. reflexivity.
  - unfold my_metric, burke_formula. fold (risk_free_rate 252).
    destruct risk_free_rate_252 as [rate ->]. run.
    fold idx. rewrite Hiloc. run.
    rewrite drawdown_denom_formula by (subst idx; lia).
    reflexivity.
  - intros peak. apply py_max_spec.
Qed.

(** C3: the Burke ratio overrides its scale argument with 252, so its
    outcome does not depend on the scale the caller passes. *)
Theorem burke_ratio_ignores_scale :
  forall (self : CompareMetrics) (daysin s : Z),
    my_metric libm_pow self daysin s = my_metric libm_pow self daysin 252.
Proof. intros self daysin s. reflexivity. Qed.


End RatioProperties.

(** ** Division by a zero float *)

Lemma is_zero_spec (b : float) :
  is_zero b = true -> exists s, Prim2SF b = S754_zero s.
Proof.
  unfold is_zero. rewrite FloatAxioms.eqb_spec.
  change (Prim2SF 0%float) with (S754_zero false).
  destruct (Prim2SF b) as [s|s| |s m e]; try destruct s; cbn; intros H;
    try discriminate; eauto.
Qed.

Lemma is_nan_of_spec (x : float) : Prim2SF x = S754_nan -> is_nan x = true.
Proof. intros H. unfold is_nan. rewrite FloatAxioms.eqb_spec, H. reflexivity. Qed.

Lemma is_infinity_of_spec (x : float) (s : bool) :
  Prim2SF x = S754_infinity s -> is_infinity x = true.
Proof.
  intros H. unfold is_infinity. rewrite FloatAxioms.eqb_spec, abs_spec, H. reflexivity.
Qed.

(** IEEE division by a zero: NaN or an infinity, of either sign. *)
Lemma float_div_zero (a b : float) :
  is_zero b = true -> (is_nan (a / b) || is_infinity (a / b)) = true.
Proof.
  intros Hb. destruct (is_zero_spec b Hb) as [s Hs].
  pose proof (div_spec a b) as Hd. rewrite Hs in Hd. unfold SF64div in Hd.
  destruct (Prim2SF a) as [sa|sa| |sa m e]; simpl in Hd.
  - rewrite (is_nan_of_spec _ Hd). reflexivity.
  - rewrite (is_infinity_of_spec _ _ Hd). apply orb_true_r.
  - rewrite (is_nan_of_spec _ Hd). reflexivity.
  - rewrite (is_infinity_of_spec _ _ Hd). apply orb_true_r.
Qed.

Lemma truediv_zero_by_kind (x x' : num) (d : float) :
  is_np x = is_np x' -> is_zero d = true ->
  zero_division_outcome x' (py_truediv x (PyFloat d)).
Proof.
  intros Hk Hd.
  destruct x as [z|f|f], x' as [z'|f'|f']; try discriminate;
    unfold py_truediv; simpl; try (now rewrite Hd);
    eexists; (split; [reflexivity|]); now apply float_div_zero.
Qed.

Lemma add_np_kind (a r : num) (v : float) :
  py_add a (NpFloat v) = Ok r -> is_np r = true.
Proof.
  unfold py_add, arith. destruct a as [z|f|f]; simpl.
  - destruct (float_of_int z); simpl; [|discriminate]. now intros [= <-].
  - now intros [= <-].
  - now intros [= <-].
Qed.

Lemma math_sqrt_kind (x d : num) :
  math_sqrt x = Ok d -> exists f, d = PyFloat f.
Proof.
  unfold math_sqrt. destruct (as_float x) as [f|e]; simpl; [|discriminate].
  destruct (f <? 0)%float; [discriminate|]. intros [= <-]. eauto.
Qed.

Lemma bind_Ok {A B} (m : result A) (k : A -> result B) (b : B) :
  bind m k = Ok b -> exists a, m = Ok a /\ k a = Ok b.
Proof. destruct m as [a|e]; simpl; [eauto | discriminate]. Qed.

Lemma truediv_kind (x y v : num) :
  py_truediv x y = Ok v -> is_float v = true.
Proof.
  unfold py_truediv. intros H.
  destruct x, y; simpl in H;
    repeat match type of H with
    | bind ?m _ = _ => destruct m; simpl in H
    | (if ?c then _ else _) = _ => destruct c
    end;
    try discriminate; injection H as <-; reflexivity.
Qed.

Lemma arith_kind iop fop (x y v : num) :
  is_float x || is_float y = true ->
  arith iop fop x y = Ok v -> is_float v = true.
Proof.
  unfold arith. intros Hk H.
  destruct x, y; simpl in Hk; try discriminate; simpl in H;
    repeat match type of H with
    | bind ?m _ = _ => destruct m; simpl in H
    end;
    try discriminate; injection H as <-; reflexivity.
Qed.

Lemma pow_kind libm_pow (x v : num) (n : Z) :
  is_float x = true -> py_pow libm_pow x n = Ok v -> is_float v = true.
Proof.
  destruct x as [z|f|f]; [discriminate| |]; intros _ H; simpl in H.
  - unfold float_pow in H.
    destruct (float_of_int n); simpl in H; [|discriminate].
    destruct (is_zero f && (n <? 0)); [discriminate|].
    destruct (is_finite f && is_infinity _); [discriminate|].
    injection H as <-. reflexivity.
  - destruct (float_of_int n); simpl in H; [|discriminate].
    injection H as <-. reflexivity.
Qed.

(** A float minus a float is a float: nothing to convert, nothing raised. *)
Lemma sub_floats (x y : num) :
  is_float x = true -> is_float y = true ->
  exists v, py_sub x y = Ok v /\ is_float v = true.
Proof.
  destruct x, y; try discriminate; intros _ _; eexists; split; reflexivity.
Qed.

Lemma daily_return_all_missing (lv : gmap nat float) (row : Row) :
  daily_return lv row = Raise ZeroDivisionError <-> forallb is_nan row = true.
Proof.
  rewrite daily_return_raises.
  pose proof (count_observed_pos row) as Hp.
  pose proof (count_observed_nonneg row) as Hge.
  assert (Hb : forallb is_nan row = negb (existsb observed row)).
  { clear. induction row as [|c r IH]; [reflexivity|].
    simpl. rewrite IH. unfold observed. now destruct (is_nan c). }
  rewrite Hb. destruct (existsb observed row); simpl.
  - split; [|discriminate]. intros H0. destruct Hp as [_ Hp].
    specialize (Hp eq_refl). lia.
  - split; [reflexivity|]. intros _.
    destruct (Z.eq_dec (count_observed row) 0) as [|Hne]; [assumption|].
    assert (1 <= count_observed row) as H1 by lia.
    apply Hp in H1. discriminate.
Qed.

(** Splits every hypothesis that says a sequence of steps returned into one
    hypothesis per step. *)
Ltac inv_binds :=
  repeat match goal with
  | H : bind _ _ = Ok _ |- _ => apply bind_Ok in H; destruct H as (? & ? & ?)
  | H : Ok _ = Ok _ |- _ => injection H as H; subst
  | H : (let '(_, _) := ?p in _) = Ok _ |- _ => destruct p
  end.

Section ZeroDenominators.

Variable libm_pow : float -> float -> float.
Variable series_mean : list float -> float.

Lemma period_returns_kind (self : CompareMetrics) (k : Z) (target : Row)
    (v : num) :
  period_returns libm_pow self k 252 target = Ok v -> is_float v = true.
Proof.
  unfold period_returns. intros H.
  destruct (252 <=? k + 1); unfold lift2, ret_num in H; inv_binds.
  - eauto using truediv_kind.
  - match goal with
    | Hq : py_truediv _ _ = Ok ?avg, Ha : py_add _ ?avg = Ok ?x,
      Hp : py_pow _ ?x _ = Ok ?y, Hs : py_sub ?y _ = Ok _ |- _ =>
      apply truediv_kind in Hq;
      apply arith_kind in Ha; [|now rewrite Hq, orb_true_r];
      apply (pow_kind _ _ _ _ Ha) in Hp;
      apply arith_kind in Hs; [exact Hs | now rewrite Hp]
    end.
Qed.

Lemma drawdown_denom_kind (self : CompareMetrics) (k : Z) (d : num) :
  drawdown_denom libm_pow self k = Ok d -> exists f, d = PyFloat f.
Proof.
  unfold drawdown_denom. intros H.
  repeat (apply bind_Ok in H; destruct H as (? & _ & H)).
  destruct (_ <? _)%float; [discriminate|]. injection H as <-. eauto.
Qed.

(** Once a product of deviations is added, the sum of the products is a
    numpy.float64. *)
Lemma correlation_loop_numerator (xs : list float) :
  forall (i : nat) (Y : list float) (ax ay : float) (sxy sxx syy a b c : num),
    xs <> [] \/ is_np sxy = true ->
    correlation_loop (python_arithmetic libm_pow series_mean) xs i Y ax ay
                     sxy sxx syy = Ok (a, b, c) ->
    is_np a = true.
Proof.
  induction xs as [|x rest IH]; intros i Y ax ay sxy sxx syy a b c Hk H.
  - simpl in H. injection H as <- _ _. now destruct Hk.
  - cbn [correlation_loop] in H.
    cbn [bind scalar minus times plus squared python_arithmetic] in H.
    rewrite !np_sub in H. cbn [bind] in H.
    destruct (Y !! i) as [y|]; [|discriminate]. cbn [bind] in H.
    rewrite !np_sub in H. cbn [bind] in H.
    rewrite np_mul in H. cbn [bind] in H.
    apply bind_Ok in H as (sxy' & Hadd & H).
    apply add_np_kind in Hadd.
    repeat (apply bind_Ok in H as (? & _ & H)).
    eapply IH; [|exact H]. now right.
Qed.

(** C2 (as amended): what a zero denominator does at each of the three
    divisions.  A daily-return row without an observed cell divides the int
    0 by the int 0 and raises [ZeroDivisionError].  The Burke quotient over
    a zero drawdown denominator is a numpy.float64 NaN or infinity when the
    period return is a numpy.float64, and raises [ZeroDivisionError] when it
    is a Python float.  The Pearson quotient over a zero denominator is a
    numpy.float64 NaN or infinity when the sum of the products is a
    numpy.float64, which it is for columns that are not empty, and raises
    [ZeroDivisionError] when that sum is still the int 0. *)
Theorem zero_denominator_outcomes :
  (forall (lastValues : gmap nat float) (row : Row),
     forallb is_nan row = true ->
     daily_return lastValues row = Raise ZeroDivisionError) /\
  (forall (self : CompareMetrics) (daysin s : Z) (targetDate : Row)
          (returns denom : num),
     let burkeRatioIdx := len (portfolio self) - 1 - daysin in
     iloc (portfolio self) burkeRatioIdx = Ok targetDate ->
     period_returns libm_pow self burkeRatioIdx 252 targetDate = Ok returns ->
     drawdown_denom libm_pow self burkeRatioIdx = Ok denom ->
     num_is_zero denom = true ->
     zero_division_outcome returns (my_metric libm_pow self daysin s)) /\
  (forall (xValues yValues : list float) (sumdXdY sumdX2 sumdY2 denom : num),
     correlation_loop (python_arithmetic libm_pow series_mean) xValues 0
       yValues (series_mean xValues) (series_mean yValues)
       (PyInt 0) (PyInt 0) (PyInt 0) = Ok (sumdXdY, sumdX2, sumdY2) ->
     (p ← py_mul sumdX2 sumdY2; math_sqrt p) = Ok denom ->
     num_is_zero denom = true ->
     zero_division_outcome sumdXdY
       (correlation (python_arithmetic libm_pow series_mean) xValues yValues) /\
     (xValues <> [] -> is_np sumdXdY = true)).
Proof.
  split; [|split].
  - intros lv row Hrow.
    now apply daily_return_all_missing.
  - intros self daysin s target returns denom idx Ht Hr Hd Hz.
    unfold my_metric. fold idx. fold (risk_free_rate 252).
    destruct risk_free_rate_252 as [rate ->]. rewrite Ht. run.
    rewrite Hr. run. rewrite Hd.
    destruct (drawdown_denom_kind _ _ _ Hd) as [d ->].
    apply period_returns_kind in Hr.
    destruct returns as [z|r|r]; [discriminate| |]; cbn [py_sub arith as_float bind is_np orb];
      now apply truediv_zero_by_kind.
  - intros xs ys sxy sxx syy denom Hloop Hden Hz. split.
    + unfold correlation. cbn [mean zero times root over python_arithmetic].
      rewrite Hloop. run.
      apply bind_Ok in Hden. destruct Hden as (p & Hp & Hden).
      rewrite Hp. run. rewrite Hden. run.
      destruct (math_sqrt_kind _ _ Hden) as [d ->].
      now apply truediv_zero_by_kind.
    + intros Hne. eapply correlation_loop_numerator; [|exact Hloop]. now left.
Qed.

End ZeroDenominators.

(** ** The sweep *)

Lemma py_range_sweep :
  py_range 1 800 15 = map (fun k : nat => 1 + 15 * Z.of_nat k) (seq 0 54).
Proof. reflexivity. Qed.

Lemma raises_false {A} (m : result A) :
  raises m = false -> exists a, m = Ok a.
Proof. destruct m; [eauto | discriminate]. Qed.

(** A column of results, read position by position and stored as float64. *)
Lemma column_spec (f : Z -> result num) (offsets : list Z) (vs : list num) :
  (forall i v, f i = Ok v -> is_float v = true) ->
  Forall2 (fun i v => f i = Ok v) offsets vs ->
  exists xs,
    comprehension as_float vs = Ok xs /\
    Forall2 (fun i x => exists v, f i = Ok v /\ as_float v = Ok x) offsets xs.
Proof.
  intros Hkind Hcol. induction Hcol as [|i v offsets vs Hi _ (xs & Hxs & IH)].
  - exists []. split; [reflexivity | constructor].
  - pose proof (Hkind i v Hi) as Hv.
    assert (exists x, as_float v = Ok x) as [x Hx]
      by (destruct v; [discriminate | eauto | eauto]).
    exists (x :: xs). simpl. rewrite Hx, Hxs. split; [reflexivity|].
    constructor; eauto.
Qed.

Section Sweep.

Variable libm_pow : float -> float -> float.

Lemma sharpe_ratio_kind (self : CompareMetrics) (i s : Z) (v : num) :
  sharpe_ratio libm_pow self i s = Ok v -> is_float v = true.
Proof.
  unfold sharpe_ratio. intros H. unfold lift2, ret_num in H. inv_binds.
  eauto using truediv_kind.
Qed.

Lemma my_metric_kind (self : CompareMetrics) (i s : Z) (v : num) :
  my_metric libm_pow self i s = Ok v -> is_float v = true.
Proof.
  unfold my_metric. intros H. unfold lift2, ret_num in H. inv_binds.
  eauto using truediv_kind.
Qed.

Lemma sweep_loop_spec (self : CompareMetrics) (offsets : list Z) :
  forall sharpe burke : list num,
    forallb (returns_both libm_pow self) offsets = true ->
    exists ss bs,
      sweep_loop libm_pow self offsets sharpe burke =
        Ok (sharpe ++ ss, burke ++ bs) /\
      Forall2 (fun i v => sharpe_ratio libm_pow self i 252 = Ok v) offsets ss /\
      Forall2 (fun i v => my_metric libm_pow self i 252 = Ok v) offsets bs.
Proof.
  induction offsets as [|i rest IH]; intros sharpe burke Hall.
  - exists [], []. simpl. rewrite !app_nil_r. auto.
  - simpl in Hall. apply andb_prop in Hall as [Hi Hrest].
    unfold returns_both in Hi. apply andb_prop in Hi as [Hs Hb].
    apply negb_true_iff, raises_false in Hs as [s Hs].
    apply negb_true_iff, raises_false in Hb as [b Hb].
    destruct (IH (sharpe ++ [s]) (burke ++ [b]) Hrest)
      as (ss & bs & Hl & Hss & Hbs).
    exists (s :: ss), (b :: bs). simpl. rewrite Hs, Hb. simpl.
    rewrite Hl, <- !app_assoc. simpl. auto.
Qed.

(** Conversely, the first ratio call that raises ends the sweep. *)
Lemma sweep_loop_raises (self : CompareMetrics) (offsets : list Z) :
  forall sharpe burke : list num,
    forallb (returns_both libm_pow self) offsets = false ->
    raises (sweep_loop libm_pow self offsets sharpe burke) = true.
Proof.
  induction offsets as [|i rest IH]; intros sharpe burke Hsome;
    [discriminate|].
  simpl in Hsome. simpl. unfold returns_both in Hsome at 1.
  destruct (sharpe_ratio libm_pow self i 252) as [s|e]; [|reflexivity].
  destruct (my_metric libm_pow self i 252) as [b|e]; [|reflexivity].
  simpl in Hsome. simpl. now apply IH.
Qed.

Lemma raising_offset (self : CompareMetrics) (i : Z) (offsets : list Z) :
  In i offsets ->
  raises (sharpe_ratio libm_pow self i 252) = true ->
  forallb (returns_both libm_pow self) offsets = false.
Proof.
  intros Hin Hr. destruct (forallb _ offsets) eqn:Hall; [|reflexivity].
  rewrite List.forallb_forall in Hall. specialize (Hall i Hin).
  unfold returns_both in Hall. rewrite Hr in Hall. discriminate.
Qed.

Lemma compare_metrics_raises (self : CompareMetrics) :
  forallb (returns_both libm_pow self) (py_range 1 800 15) = false ->
  raises (compare_metrics libm_pow self) = true.
Proof.
  intros Hsome. unfold compare_metrics.
  pose proof (sweep_loop_raises self _ [] [] Hsome) as Hr.
  destruct (sweep_loop libm_pow self (py_range 1 800 15) [] []);
    [discriminate | reflexivity].
Qed.

(** When none of the ratio calls of the sweep raises, the frame has 54
    entries, indexed by the offsets 1, 16, ..., 796 in the order of
    [range(1, 800, 15)], and the entry at an offset holds the Sharpe and the
    Burke ratio of the same object at that offset. *)
Lemma compare_metrics_frame :
  forall self : CompareMetrics,
    forallb (returns_both libm_pow self) (py_range 1 800 15) = true ->
    exists frame,
      compare_metrics libm_pow self = Ok frame /\
      index frame = map (fun k : nat => 1 + 15 * Z.of_nat k) (seq 0 54) /\
      length (index frame) = 54%nat /\
      last (index frame) = Some 796 /\
      Forall2 (fun i x => exists v,
                 sharpe_ratio libm_pow self i 252 = Ok v /\ as_float v = Ok x)
              (index frame) (Sharpe frame) /\
      Forall2 (fun i x => exists v,
                 my_metric libm_pow self i 252 = Ok v /\ as_float v = Ok x)
              (index frame) (Burke frame).
Proof.
  intros self Hall.
  destruct (sweep_loop_spec self _ [] [] Hall) as (ss & bs & Hl & Hss & Hbs).
  destruct (column_spec _ _ _ (fun i => sharpe_ratio_kind self i 252) Hss)
    as (xs & Hxs & Hcx).
  destruct (column_spec _ _ _ (fun i => my_metric_kind self i 252) Hbs)
    as (ys & Hys & Hcy).
  exists {| index := py_range 1 800 15; Sharpe := xs; Burke := ys |}.
  unfold compare_metrics. rewrite Hl. simpl app. cbn [bind].
  rewrite Hxs, Hys. cbn [bind index Sharpe Burke].
  repeat split; auto.
Qed.

Lemma sweep_loop_first_raised (self : CompareMetrics) (offsets : list Z) :
  forall sharpe burke : list num,
    match first_raised (ratio_calls libm_pow self offsets) with
    | Some e => sweep_loop libm_pow self offsets sharpe burke = Raise e
    | None => forallb (returns_both libm_pow self) offsets = true
    end.
Proof.
  induction offsets as [|i rest IH]; intros sharpe burke; [reflexivity|].
  cbn [ratio_calls flat_map app first_raised sweep_loop forallb].
  unfold returns_both at 1.
  destruct (sharpe_ratio libm_pow self i 252) as [s|e]; [|reflexivity].
  destruct (my_metric libm_pow self i 252) as [b|e]; [|reflexivity].
  cbn [bind raises negb andb]. apply IH.
Qed.

(** C6 (as amended): the outcome of the sweep is decided by its 108 ratio
    calls, made in the order of the offsets 1, 16, ..., 796 of
    [range(1, 800, 15)], the Sharpe ratio before the Burke ratio.  When a
    call raises, the sweep raises the exception of the first such call and
    builds no frame.  When none raises, the frame has 54 entries, indexed by
    the offsets in that order, and the entry at an offset holds the Sharpe
    and the Burke ratio of the same object at that offset. *)
Theorem compare_metrics_outcome :
  forall self : CompareMetrics,
    match first_raised (ratio_calls libm_pow self (py_range 1 800 15)) with
    | Some e => compare_metrics libm_pow self = Raise e
    | None =>
      exists frame,
        compare_metrics libm_pow self = Ok frame /\
        index frame = map (fun k : nat => 1 + 15 * Z.of_nat k) (seq 0 54) /\
        length (index frame) = 54%nat /\
        last (index frame) = Some 796 /\
        Forall2 (fun i x => exists v,
                   sharpe_ratio libm_pow self i 252 = Ok v /\
                   as_float v = Ok x)
                (index frame) (Sharpe frame) /\
        Forall2 (fun i x => exists v,
                   my_metric libm_pow self i 252 = Ok v /\ as_float v = Ok x)
                (index frame) (Burke frame)
    end.
Proof.
  intros self.
  pose proof (sweep_loop_first_raised self (py_range 1 800 15) [] []) as H.
  destruct (first_raised (ratio_calls libm_pow self (py_range 1 800 15))) as [e|].
  - unfold compare_metrics. rewrite H. reflexivity.
  - now apply compare_metrics_frame.
Qed.

End Sweep.

(** ** The correlation in binary64 *)

Section FloatCorrelation.

Variable libm_pow : float -> float -> float.
Variable series_mean : list float -> float.

Lemma np_square (a : float) :
  py_pow libm_pow (NpFloat a) 2 = Ok (NpFloat (libm_pow a 2)).
Proof. reflexivity. Qed.

(** On float64 columns no step of the loop raises: the three accumulators
    are the running sums of the three term lists. *)
Lemma correlation_loop_python (xs : list float) :
  forall (i : nat) (Y : list float) (ax ay : float) (sxy sxx syy : num),
    sum_kind sxy -> sum_kind sxx -> sum_kind syy ->
    (i + length xs <= length Y)%nat ->
    let ys := take (length xs) (drop i Y) in
    exists a b c,
      sum_from sxy (zip_with (fun x y => NpFloat ((x - ax) * (y - ay))) xs ys)
        = Ok a /\
      sum_from sxx (map (fun x => NpFloat (libm_pow (x - ax) 2)) xs) = Ok b /\
      sum_from syy (map (fun y => NpFloat (libm_pow (y - ay) 2)) ys) = Ok c /\
      sum_kind a /\ sum_kind b /\ sum_kind c /\
      correlation_loop (python_arithmetic libm_pow series_mean) xs i Y ax ay sxy sxx syy
        = Ok (a, b, c).
Proof.
  induction xs as [|x rest IH]; intros i Y ax ay sxy sxx syy Kxy Kxx Kyy Hlen ys.
  - exists sxy, sxx, syy. subst ys. simpl. auto 10.
  - simpl in Hlen.
    destruct (lookup_lt_is_Some_2 Y i) as [y Hy]; [lia|].
    subst ys. rewrite (drop_S _ _ _ Hy).
    destruct (sum_kind_add sxy ((x - ax) * (y - ay)) Kxy) as [fxy Hxy].
    destruct (sum_kind_add sxx (libm_pow (x - ax) 2) Kxx) as [fxx Hxx].
    destruct (sum_kind_add syy (libm_pow (y - ay) 2) Kyy) as [fyy Hyy].
    destruct (IH (S i) Y ax ay (NpFloat fxy) (NpFloat fxx) (NpFloat fyy))
      as (a & b & c & Ha & Hb & Hc & Ka & Kb & Kc & Hl);
      [auto with risk | auto with risk | auto with risk | lia |].
    exists a, b, c.
    cbn [length take zip_with map sum_from correlation_loop].
    rewrite Hxy, Hxx, Hyy, Hy. cbn [bind]. rewrite Ha, Hb, Hc.
    repeat first
      [ progress cbn [bind scalar minus times plus squared python_arithmetic]
      | rewrite np_sub | rewrite np_mul | rewrite np_square
      | rewrite Hxy | rewrite Hxx | rewrite Hyy | rewrite Hl ].
    auto 10.
Qed.

(** X1: on two float64 columns of the same length the routine returns the
    Pearson formula evaluated in binary64 about the two means
    [Series.mean()] gives, the three sums taken left to right. *)
Theorem get_correlation_coefficient_formula :
  forall self : CompareMetrics,
    let X := Sharpe (compareMetrics self) in
    let Y := Burke (compareMetrics self) in
    length X = length Y ->
    get_correlation_coefficient libm_pow series_mean self = pearson_formula libm_pow series_mean X Y.
Proof.
  intros self X Y Hlen. unfold get_correlation_coefficient, correlation.
  fold X Y. cbn [mean zero times root over python_arithmetic].
  destruct (correlation_loop_python X 0%nat Y (series_mean X) (series_mean Y)
              (PyInt 0) (PyInt 0) (PyInt 0))
    as (a & b & c & Ha & Hb & Hc & _ & _ & _ & Hl);
    [auto with risk | auto with risk | auto with risk | simpl; lia |].
  rewrite drop_0, Hlen, firstn_all in Ha, Hc.
  rewrite Hl. unfold pearson_formula, py_sum. rewrite Ha, Hb, Hc.
  reflexivity.
Qed.

End FloatCorrelation.

(** X2: a derived daily-return series has one entry per row of the table. *)
Theorem daily_returns_one_per_row :
  forall (self : CompareMetrics) (dailyReturns : list num),
    calc_daily_returns self = Ok dailyReturns ->
    length dailyReturns = length (portfolio self).
Proof.
  intros self dr H. apply days_loop_length in H. exact H.
Qed.

(** ** The claims at concrete inputs *)

Lemma cycling_table_rectangular : rectangular 1 cycling_table.
Proof.
  unfold rectangular, cycling_table. apply List.Forall_map.
  apply List.Forall_forall. intros k _. reflexivity.
Qed.

(** C2, the claim as stated fails: a table whose only row has no observed
    price makes the daily-return division raise, and a one-row table makes
    the Burke division raise; neither surfaces a NaN. *)
Lemma zero_denominators_raise :
  calc_daily_returns (bare [[nan]]) = Raise ZeroDivisionError /\
  drawdown_denom example_pow (object_of [[100%float]]) 0 = Ok (PyFloat 0) /\
  my_metric example_pow (object_of [[100%float]]) 0 252 =
    Raise ZeroDivisionError.
Proof. repeat split; vm_compute; reflexivity. Qed.

(** C2 (as amended) at concrete inputs: the all-missing row; the one-row
    table, whose period return is a Python float; two constant columns. *)
Lemma zero_denominator_outcomes_witness :
  daily_return ∅ [nan] = Raise ZeroDivisionError /\
  my_metric example_pow (object_of [[100%float]]) 0 252 =
    Raise ZeroDivisionError /\
  exists f,
    correlation (python_arithmetic example_pow example_mean)
                [1; 1]%float [1; 1]%float = Ok (NpFloat f) /\
    (is_nan f || is_infinity f) = true.
Proof.
  destruct (zero_denominator_outcomes example_pow example_mean)
    as (Hrow & Hburke & Hcorr).
  split; [|split].
  - apply Hrow. reflexivity.
  - apply (Hburke (object_of [[100%float]]) 0 252 [100%float]
             (PyFloat 0) (PyFloat 0)); vm_compute; reflexivity.
  - apply (Hcorr [1; 1]%float [1; 1]%float
             (NpFloat 0) (NpFloat 0) (NpFloat 0) (PyFloat 0));
      vm_compute; reflexivity.
Defined.

(** C4 at the three-day table, one day back. *)
Lemma sharpe_ratio_formula_witness :
  0 <= 1 <= len (daily_returns (object_of small_table)) - 1 /\
  sharpe_ratio example_pow (object_of small_table) 1 252 =
    sharpe_formula example_pow
      (rows_through (len (daily_returns (object_of small_table)) - 1 - 1)
                    (daily_returns (object_of small_table)))
      252.
Proof.
  assert (H : 0 <= 1 <= len (daily_returns (object_of small_table)) - 1)
    by (vm_compute; split; discriminate).
  split; [exact H|].
  exact (sharpe_ratio_formula example_pow (object_of small_table) 1 252 H).
Defined.

(** C5 at the 800-day table, one day back: the window branch. *)
Lemma burke_ratio_formula_witness :
  rectangular 1 (portfolio (object_of cycling_table)) /\
  0 <= 1 <= len (portfolio (object_of cycling_table)) - 1 /\
  exists targetRow,
    portfolio (object_of cycling_table) !! 798%nat = Some targetRow /\
    my_metric example_pow (object_of cycling_table) 1 252 =
      (periodReturn ←
         period_returns example_pow (object_of cycling_table) 798 252 targetRow;
       burke_formula example_pow periodReturn
         (rows_through 798 (daily_values (object_of cycling_table)))).
Proof.
  assert (Hp : portfolio (object_of cycling_table) = cycling_table)
    by (vm_compute; reflexivity).
  assert (Hr : rectangular 1 (portfolio (object_of cycling_table)))
    by (rewrite Hp; apply cycling_table_rectangular).
  assert (Hin : 0 <= 1 <= len (portfolio (object_of cycling_table)) - 1)
    by (rewrite Hp; vm_compute; split; discriminate).
  split; [exact Hr|]. split; [exact Hin|].
  destruct (burke_ratio_formula example_pow (object_of cycling_table)
              1 252 1%nat Hr Hin) as (targetRow & Ht & _ & Hm & _).
  exists targetRow. rewrite Hp in Ht, Hm. rewrite Hp.
  change (Z.to_nat (len cycling_table - 1 - 1)) with 798%nat in Ht.
  change (len cycling_table - 1 - 1) with 798 in Hm.
  split; [exact Ht | exact Hm].
Defined.

(** C6 (as amended) at the 800-day table, where no ratio call raises and the
    frame is built, and at its first 797 days, where the sweep raises the
    [ZeroDivisionError] of the Sharpe ratio at the offset 796. *)
Lemma compare_metrics_outcome_witness :
  (exists frame,
     compare_metrics example_pow (object_of cycling_table) = Ok frame /\
     length (index frame) = 54%nat /\
     last (index frame) = Some 796) /\
  compare_metrics example_pow (object_of table_797) = Raise ZeroDivisionError.
Proof.
  split.
  - pose proof (compare_metrics_outcome example_pow (object_of cycling_table))
      as H.
    replace (first_raised _) with (@None exn) in H by (vm_compute; reflexivity).
    destruct H as (frame & Hf & _ & Hlen & Hlast & _).
    exists frame. auto.
  - pose proof (compare_metrics_outcome example_pow (object_of table_797))
      as H.
    replace (first_raised _) with (Some ZeroDivisionError) in H
      by (vm_compute; reflexivity).
    exact H.
Defined.

(** C6, the claim as stated fails: on a table of 797 days every offset of
    the sweep is inside the table, yet the Sharpe ratio at the offset 796
    divides by the zero deviation of a single return and raises, so the sweep
    raises and no frame is produced. *)
Lemma sweep_raises_on_797_days :
  len (portfolio (object_of table_797)) - 1 = 796 /\
  slice_to (daily_returns (object_of table_797))
           (len (daily_returns (object_of table_797)) - 796) = [PyFloat 0] /\
  sharpe_ratio example_pow (object_of table_797) 796 252 =
    Raise ZeroDivisionError /\
  raises (compare_metrics example_pow (object_of table_797)) = true.
Proof.
  assert (H : sharpe_ratio example_pow (object_of table_797) 796 252 =
              Raise ZeroDivisionError) by (vm_compute; reflexivity).
  split; [vm_compute; reflexivity|].
  split; [vm_compute; reflexivity|].
  split; [exact H|].
  apply compare_metrics_raises.
  apply (raising_offset example_pow _ 796); [|now rewrite H].
  rewrite py_range_sweep. apply List.in_map_iff. exists 53%nat.
  split; [reflexivity | apply List.in_seq; lia].
Qed.

(** Two identical columns do not always correlate to 1.0.  A constant
    column has zero deviations, and the quotient 0.0 / 0.0 of numpy.float64
    is NaN; on the column 0, 2^600 the squared deviations overflow, and the
    quotient inf / inf is NaN as well. *)
Lemma identical_columns_with_nan_correlation :
  get_correlation_coefficient example_pow example_mean
    {| portfolio := []; daily_returns := []; daily_values := [];
       compareMetrics := {| index := py_range 1 800 15;
                            Sharpe := repeat 1%float 54;
                            Burke := repeat 1%float 54 |} |}
  = Ok (NpFloat nan) /\
  correlation (python_arithmetic example_pow example_mean)
              [0; 0x1p+600]%float [0; 0x1p+600]%float
  = Ok (NpFloat nan).
Proof. split; vm_compute; reflexivity. Qed.


(** X1 at two columns of three entries. *)
Lemma get_correlation_coefficient_formula_witness :
  get_correlation_coefficient example_pow example_mean
    {| portfolio := []; daily_returns := []; daily_values := [];
       compareMetrics := {| index := [1; 16; 31];
                            Sharpe := [1; 2; 4]%float;
                            Burke := [3; 1; 2]%float |} |} =
  pearson_formula example_pow example_mean [1; 2; 4]%float [3; 1; 2]%float.
Proof.
  exact (get_correlation_coefficient_formula example_pow example_mean
           {| portfolio := []; daily_returns := []; daily_values := [];
              compareMetrics := {| index := [1; 16; 31];
                                   Sharpe := [1; 2; 4]%float;
                                   Burke := [3; 1; 2]%float |} |}
           eq_refl).
Defined.

(** X2 at the three-day table. *)
Lemma daily_returns_one_per_row_witness :
  calc_daily_returns (bare small_table) =
    Ok (daily_returns (object_of small_table)) /\
  length (daily_returns (object_of small_table)) =
    length (portfolio (bare small_table)).
Proof.
  assert (H : calc_daily_returns (bare small_table) =
              Ok (daily_returns (object_of small_table)))
    by (vm_compute; reflexivity).
  split; [exact H|].
  exact (daily_returns_one_per_row _ _ H).
Defined.

(** * Further properties of the code *)

(** ** Daily returns: what a pass remembers and what it depends on *)

Lemma record_prices_lookup (cells : Row) :
  forall (i : nat) (lv : gmap nat float) (j : nat),
    record_prices cells i lv !! j =
      if (i <=? j)%nat
      then match cells !! (j - i)%nat with
           | Some cell => if observed cell then Some cell else lv !! j
           | None => lv !! j
           end
      else lv !! j.
Proof.
  induction cells as [|cell rest IH]; intros i lv j; simpl.
  - destruct (i <=? j)%nat; reflexivity.
  - rewrite IH.
    destruct (Nat.leb_spec (S i) j) as [Hlt|Hge].
    + destruct (Nat.leb_spec i j) as [_|]; [|lia].
      replace (j - i)%nat with (S (j - S i)) by lia. simpl.
      destruct (rest !! (j - S i)%nat) as [c|];
        [destruct (observed c); [reflexivity|]|];
        (destruct (observed cell); [apply lookup_insert_ne; lia | reflexivity]).
    + destruct (Nat.leb_spec i j) as [Hle|Hgt].
      * assert (j = i) as -> by lia. rewrite Nat.sub_diag. simpl.
        destruct (observed cell); [apply lookup_insert_eq | reflexivity].
      * destruct (observed cell); [apply lookup_insert_ne; lia | reflexivity].
Qed.

(** X3: a row replaces the remembered price of exactly the columns it
    observes: after the row, column [j] holds the row's cell when that cell is
    observed and the price remembered before otherwise, so a missing price
    carries the last observed one forward and no remembered price is ever
    dropped. *)
Theorem daily_return_carries_last_price :
  forall (lastValues lastValues' : gmap nat float) (row : Row) (r : num),
    daily_return lastValues row = Ok (lastValues', r) ->
    forall j : nat, lastValues' !! j = carried lastValues row j.
Proof.
  intros lv lv' row r H j. rewrite daily_return_formula in H.
  apply bind_Ok in H as (q & _ & [= <- _]).
  rewrite record_prices_lookup. unfold carried. simpl.
  now rewrite Nat.sub_0_r.
Qed.

Lemma changes_fully_observed (cur : Row) :
  forall (i : nat) (prev : Row) (lv : gmap nat float),
    forallb observed cur = true ->
    (forall k c, cur !! k = Some c ->
                 exists p, prev !! k = Some p /\ lv !! (i + k)%nat = Some p) ->
    changes cur i lv = day_changes cur prev.
Proof.
  induction cur as [|c rest IH]; intros i prev lv Hobs Hprev; [reflexivity|].
  simpl in Hobs. apply andb_prop in Hobs as [Hc Hrest].
  destruct (Hprev 0%nat c eq_refl) as (p & Hp & Hlv).
  destruct prev as [|p' prev']; [discriminate|]. injection Hp as ->.
  simpl. rewrite Nat.add_0_r in Hlv. rewrite Hlv, Hc.
  unfold day_changes. simpl. f_equal.
  apply IH; [assumption|]. intros k c' Hk.
  destruct (Hprev (S k) c' Hk) as (q & Hq & Hlq).
  exists q. split; [exact Hq|]. now replace (S i + k)%nat with (i + S k)%nat by lia.
Qed.

Lemma count_fully_observed (cells : Row) :
  forallb observed cells = true -> count_observed cells = len cells.
Proof.
  induction cells as [|c rest IH]; intros H; [reflexivity|].
  simpl in H. apply andb_prop in H as [Hc Hrest].
  rewrite count_observed_cons, Hc, (IH Hrest). unfold len. simpl. lia.
Qed.

Lemma prices_before_S (table : PriceTable) (k : nat) (row : Row) :
  table !! k = Some row ->
  prices_before table (S k) = record_prices row 0 (prices_before table k).
Proof.
  intros Hrow. unfold prices_before.
  rewrite (take_S_r _ _ _ Hrow), fold_left_app. reflexivity.
Qed.

Lemma prices_before_beyond (table : PriceTable) (k : nat) :
  table !! k = None -> prices_before table (S k) = prices_before table k.
Proof.
  intros Hnone. apply lookup_ge_None in Hnone. unfold prices_before.
  rewrite !take_ge by lia. reflexivity.
Qed.

Lemma prices_before_lookup (table : PriceTable) (k j : nat) :
  prices_before table k !! j = last_observed table k j.
Proof.
  induction k as [|k IH]; [apply lookup_empty|].
  simpl. destruct (table !! k) as [row|] eqn:Hrow.
  - rewrite (prices_before_S _ _ _ Hrow), record_prices_lookup. simpl.
    rewrite Nat.sub_0_r, IH. reflexivity.
  - rewrite (prices_before_beyond _ _ Hrow). exact IH.
Qed.

Lemma changes_row_changes (cells : Row) :
  forall (i : nat) (lv : gmap nat float) (prior : nat -> option float),
    (forall j, lv !! j = prior j) ->
    changes cells i lv = row_changes prior cells i.
Proof.
  induction cells as [|cell rest IH]; intros i lv prior Hp; [reflexivity|].
  simpl. rewrite Hp, (IH (S i) lv prior Hp). reflexivity.
Qed.

Lemma comprehension_lookup {A B} (f : A -> result B) (l : list A) :
  forall (ys : list B) (i : nat) (x : A),
    comprehension f l = Ok ys -> l !! i = Some x ->
    exists y, ys !! i = Some y /\ f x = Ok y.
Proof.
  induction l as [|a l IH]; intros ys i x H Hx; [discriminate|].
  simpl in H. apply bind_Ok in H as (y & Hy & H).
  apply bind_Ok in H as (ys' & Hys & [= <-]).
  destruct i as [|i]; simpl in *.
  - injection Hx as <-. eauto.
  - eauto.
Qed.

(** The loop over days, from any day on: it appends the returns of the
    remaining days, each as [day_return] gives it. *)
Lemma days_loop_by_day (rows : PriceTable) :
  forall (earlier : PriceTable) (acc : list num),
    days_loop rows (prices_before (earlier ++ rows) (length earlier)) acc =
      (rs ← comprehension (day_return (earlier ++ rows))
                          (seq (length earlier) (length rows));
       Ok (acc ++ rs)).
Proof.
  induction rows as [|row rest IH]; intros earlier acc.
  - simpl. now rewrite app_nil_r.
  - assert (Hrow : (earlier ++ row :: rest) !! length earlier = Some row)
      by (rewrite lookup_app_r, Nat.sub_diag by lia; reflexivity).
    cbn [days_loop length seq comprehension].
    rewrite daily_return_formula.
    rewrite (changes_row_changes row 0 _
               (last_observed (earlier ++ row :: rest) (length earlier)))
      by (intros j; apply prices_before_lookup).
    unfold day_return at 1. rewrite Hrow.
    destruct (py_sum _ / PyInt (count_observed row))%py as [r|e];
      [cbn [bind]|reflexivity].
    rewrite <- (prices_before_S _ _ _ Hrow).
    specialize (IH (earlier ++ [row]) (acc ++ [r])).
    rewrite <- app_assoc, length_app in IH. simpl in IH.
    rewrite Nat.add_1_r in IH. rewrite IH.
    destruct (comprehension _ _) as [rs|e]; [cbn [bind]|reflexivity].
    now rewrite <- app_assoc.
Qed.

Lemma calc_daily_returns_by_day (self : CompareMetrics) :
  calc_daily_returns self =
    comprehension (day_return (portfolio self))
                  (seq 0 (length (portfolio self))).
Proof.
  unfold calc_daily_returns.
  pose proof (days_loop_by_day (portfolio self) [] []) as H.
  simpl in H. change (prices_before (portfolio self) 0) with (∅ : gmap nat float) in H.
  rewrite H. destruct (comprehension _ _); reflexivity.
Qed.

Lemma calc_daily_returns_entry (self : CompareMetrics)
    (dailyReturns : list num) (k : nat) (row : Row) :
  calc_daily_returns self = Ok dailyReturns ->
  portfolio self !! k = Some row ->
  exists r,
    dailyReturns !! k = Some r /\
    (py_sum (row_changes (last_observed (portfolio self) k) row 0) /
     PyInt (count_observed row))%py = Ok r.
Proof.
  intros H Hrow. rewrite calc_daily_returns_by_day in H.
  destruct (comprehension_lookup _ _ _ k k H) as (r & Hr & Hday).
  { apply lookup_seq_lt. eapply lookup_lt_Some; eauto. }
  exists r. split; [exact Hr|]. unfold day_return in Hday.
  now rewrite Hrow in Hday.
Qed.

Lemma row_changes_no_prior (cells : Row) :
  forall i : nat, row_changes (fun _ => None) cells i = [].
Proof.
  induction cells as [|cell rest IH]; intros i; simpl; [reflexivity | apply IH].
Qed.

(** C1 (as amended): for every table the derived series is, day by day, the
    sum of the day's percent changes divided by the number of observed cells
    of its row, the changes being taken against the last observed price of
    each column among the earlier days.  An observed cell without such a
    price is counted and adds nothing to the sum; it is the price later days
    are compared with.  So the return of the first day is 0.0 as soon as one
    of its cells is observed, and the division by zero is left to a first day
    with no observed cell. *)
Theorem daily_returns_count_every_observed_cell :
  forall self : CompareMetrics,
    let table := portfolio self in
    calc_daily_returns self =
      comprehension (day_return table) (seq 0 (length table)) /\
    (forall (dailyReturns : list num) (k : nat) (row : Row),
       calc_daily_returns self = Ok dailyReturns ->
       table !! k = Some row ->
       exists r,
         dailyReturns !! k = Some r /\
         (py_sum (row_changes (last_observed table k) row 0) /
          PyInt (count_observed row))%py = Ok r) /\
    (forall row : Row,
       table !! 0%nat = Some row ->
       day_return table 0 =
         if 0 <? count_observed row then Ok (PyFloat 0)
         else Raise ZeroDivisionError).
Proof.
  intros self table. split; [apply calc_daily_returns_by_day|]. split.
  - intros dr k row. apply calc_daily_returns_entry.
  - intros row Hrow. unfold day_return. rewrite Hrow.
    change (last_observed table 0) with (fun _ : nat => @None float).
    rewrite row_changes_no_prior.
    pose proof (count_observed_nonneg row).
    destruct (Z.ltb_spec 0 (count_observed row)) as [Hpos|Hle].
    + change (py_sum [] / PyInt (count_observed row))%py
        with (py_truediv (PyInt 0) (PyInt (count_observed row))).
      now rewrite int_zero_over.
    + replace (count_observed row) with 0 by lia. reflexivity.
Qed.

(** X4: when two consecutive days of a table have no missing price, the
    derived return of the second is the mean of the columns' percent changes
    (cur - prev) / prev: their sum over the number of columns. *)
Theorem daily_return_between_fully_observed_days :
  forall (self : CompareMetrics) (dailyReturns : list num) (k : nat)
         (prev cur : Row),
    calc_daily_returns self = Ok dailyReturns ->
    portfolio self !! k = Some prev ->
    portfolio self !! S k = Some cur ->
    forallb observed prev = true ->
    forallb observed cur = true ->
    length cur = length prev ->
    exists r,
      dailyReturns !! S k = Some r /\
      (py_sum (day_changes cur prev) / PyInt (len cur))%py = Ok r.
Proof.
  intros self dr k prev cur H Hprev Hcur Oprev Ocur Hlen.
  destruct (calc_daily_returns_entry self dr (S k) cur H Hcur)
    as (r & Hr & Hday).
  exists r. split; [exact Hr|].
  rewrite <- (count_fully_observed cur Ocur), <- Hday. do 3 f_equal.
  rewrite <- (changes_row_changes cur 0 (prices_before (portfolio self) (S k)))
    by (intros j; apply prices_before_lookup).
  symmetry. apply changes_fully_observed; [assumption|].
  intros j c Hc.
  destruct (lookup_lt_is_Some_2 prev j) as [p Hp].
  { rewrite <- Hlen. eapply lookup_lt_Some; eauto. }
  exists p. split; [exact Hp|].
  rewrite prices_before_lookup. simpl. rewrite Hprev, Hp.
  rewrite forallb_forall in Oprev. rewrite Oprev; [reflexivity|].
  eapply list_elem_of_In, list_elem_of_lookup_2; eauto.
Qed.

Lemma days_loop_extends (rows : PriceTable) :
  forall (lv : gmap nat float) (acc dr : list num),
    days_loop rows lv acc = Ok dr -> take (length acc) dr = acc.
Proof.
  induction rows as [|row rest IH]; intros lv acc dr H; simpl in H.
  - injection H as <-. now rewrite firstn_all.
  - destruct (daily_return lv row) as [[lv' r]|e]; [|discriminate].
    simpl in H. apply IH in H. rewrite length_app in H. simpl in H.
    apply (f_equal (take (length acc))) in H.
    rewrite take_take, take_app_length in H.
    now replace (length acc `min` (length acc + 1))%nat with (length acc)
      in H by lia.
Qed.

Lemma days_loop_app (rows more : PriceTable) :
  forall (lv : gmap nat float) (acc dr : list num),
    days_loop (rows ++ more) lv acc = Ok dr ->
    days_loop rows lv acc = Ok (take (length acc + length rows) dr).
Proof.
  induction rows as [|row rest IH]; intros lv acc dr H; simpl in *.
  - rewrite Nat.add_0_r. f_equal. symmetry. eapply days_loop_extends; eauto.
  - destruct (daily_return lv row) as [[lv' r]|e]; [|discriminate].
    simpl in *. apply IH in H. rewrite H, length_app. simpl.
    do 2 f_equal. lia.
Qed.

(** X5: a daily return never looks ahead: if the series of a table with
    further days appended is derived, the series of the table itself is
    derived too and is the first part of it. *)
Theorem calc_daily_returns_of_prefix :
  forall (rows more : PriceTable) (dailyReturns : list num),
    calc_daily_returns (bare (rows ++ more)) = Ok dailyReturns ->
    calc_daily_returns (bare rows) = Ok (take (length rows) dailyReturns).
Proof.
  intros rows more dr H. unfold calc_daily_returns in *. simpl in *.
  now apply days_loop_app in H.
Qed.

Lemma days_loop_missing_row (rows : PriceTable) :
  forall (lv : gmap nat float) (acc : list num),
    existsb (forallb is_nan) rows = true ->
    raises (days_loop rows lv acc) = true.
Proof.
  induction rows as [|row rest IH]; intros lv acc H; [discriminate|].
  simpl in H. simpl.
  destruct (forallb is_nan row) eqn:Hrow.
  - apply daily_return_all_missing with (lv := lv) in Hrow.
    rewrite Hrow. reflexivity.
  - simpl in H. destruct (daily_return lv row) as [[lv' r]|e];
      [|reflexivity].
    simpl. now apply IH.
Qed.

(** X6: one day on which no price is observed, anywhere in the table, is
    enough for the derivation of the daily returns to raise. *)
Theorem calc_daily_returns_needs_a_price_every_day :
  forall self : CompareMetrics,
    existsb (forallb is_nan) (portfolio self) = true ->
    raises (calc_daily_returns self) = true.
Proof. intros self H. now apply days_loop_missing_row. Qed.

(** X7: when lines 7-9 of the constructor return, the object holds the table
    it was given and two series with one entry per day of it, and the cached
    returns are what deriving them again from the object gives. *)
Theorem with_series_invariant :
  forall (table : PriceTable) (self : CompareMetrics),
    with_series table = Ok self ->
    portfolio self = table /\
    length (daily_returns self) = length table /\
    length (daily_values self) = length table /\
    cached self.
Proof.
  intros table self H. unfold with_series in H.
  destruct (calc_daily_returns (bare table)) as [dr|e] eqn:Hdr;
    [|discriminate].
  simpl in H. injection H as <-. simpl.
  repeat split.
  - apply days_loop_length in Hdr. exact Hdr.
  - unfold calc_daily_values. simpl. apply length_map.
  - exact Hdr.
Qed.



(** ** Offsets outside the table *)

Lemma iloc_outside {A} (l : list A) (i : Z) :
  i < - len l \/ len l <= i -> iloc l i = Raise IndexError.
Proof.
  intros H. unfold iloc.
  destruct (Z.ltb_spec i 0).
  - destruct (Z.leb_spec 0 (i + len l)); [|reflexivity].
    destruct H; [lia|]. unfold len in *. lia.
  - destruct (Z.leb_spec 0 i); [|lia].
    destruct (Z.ltb_spec i (len l)); [|reflexivity]. lia.
Qed.

Lemma iloc_wraps {A} (l : list A) (i : Z) :
  - len l <= i < len l ->
  exists a, iloc l i = Ok a.
Proof.
  intros H. unfold iloc.
  set (j := if i <? 0 then i + len l else i).
  assert (0 <= j < len l) as Hj
    by (subst j; destruct (Z.ltb_spec i 0); lia).
  destruct (Z.leb_spec 0 j); [|lia].
  destruct (Z.ltb_spec j (len l)); [|lia]. simpl.
  destruct (lookup_lt_is_Some_2 l (Z.to_nat j)) as [a Ha];
    [unfold len in *; lia|].
  rewrite Ha. eauto.
Qed.

(** *** No arithmetic step raises an [IndexError] *)

Lemma bind_no_index {A B} (m : result A) (k : A -> result B) :
  no_index_error m -> (forall a, no_index_error (k a)) ->
  no_index_error (bind m k).
Proof.
  unfold no_index_error. intros Hm Hk. destruct m as [a|e]; simpl.
  - apply Hk.
  - intros [= ->]. now apply Hm.
Qed.

Lemma ok_no_index {A} (a : A) : no_index_error (Ok a).
Proof. discriminate. Qed.

Lemma float_of_int_no_index (z : Z) : no_index_error (float_of_int z).
Proof. unfold float_of_int. destruct (is_infinity _); discriminate. Qed.

Lemma as_float_no_index (x : num) : no_index_error (as_float x).
Proof. destruct x; [apply float_of_int_no_index | discriminate..]. Qed.

Lemma arith_no_index iop fop (x y : num) : no_index_error (arith iop fop x y).
Proof.
  unfold arith.
  destruct x, y; try discriminate;
    repeat (apply bind_no_index; [apply as_float_no_index | intros ?]);
    discriminate.
Qed.

Lemma int_truediv_no_index (a b : Z) : no_index_error (int_truediv a b).
Proof.
  unfold int_truediv. destruct (b =? 0); [discriminate|].
  destruct (is_infinity _); discriminate.
Qed.

Lemma truediv_no_index (x y : num) : no_index_error (py_truediv x y).
Proof.
  unfold py_truediv.
  destruct x, y; cbn [is_np orb num_is_zero as_float];
    repeat first
      [ discriminate
      | apply bind_no_index;
        [first [apply int_truediv_no_index | apply float_of_int_no_index
               | apply ok_no_index] | intros ?]
      | match goal with
        | |- no_index_error (if ?c then _ else _) => destruct c
        end ].
Qed.

Lemma sqrt_no_index (x : num) : no_index_error (math_sqrt x).
Proof.
  unfold math_sqrt. apply bind_no_index; [apply as_float_no_index|].
  intros f. destruct (f <? 0)%float; discriminate.
Qed.

Lemma pow_no_index libm_pow (x : num) (n : Z) :
  no_index_error (py_pow libm_pow x n).
Proof.
  assert (Hf : forall v, no_index_error (float_pow libm_pow v n)).
  { intros v. unfold float_pow.
    apply bind_no_index; [apply float_of_int_no_index|]. intros w.
    destruct (is_zero v && (n <? 0)); [discriminate|].
    destruct (is_finite v && is_infinity _); discriminate. }
  destruct x as [a|v|v]; simpl.
  - destruct (0 <=? n); [discriminate|].
    apply bind_no_index; [apply float_of_int_no_index | apply Hf].
  - apply Hf.
  - apply bind_no_index; [apply float_of_int_no_index|]. discriminate.
Qed.

Lemma lift2_no_index op (a b : result num) :
  (forall x y, no_index_error (op x y)) ->
  no_index_error a -> no_index_error b -> no_index_error (lift2 op a b).
Proof.
  intros Hop Ha Hb. unfold lift2.
  apply bind_no_index; [exact Ha|]. intros x.
  apply bind_no_index; [exact Hb|]. intros y. apply Hop.
Qed.

Lemma sum_from_no_index (l : list num) :
  forall acc : num, no_index_error (sum_from acc l).
Proof.
  induction l as [|x rest IH]; intros acc; simpl; [discriminate|].
  apply bind_no_index; [apply arith_no_index | apply IH].
Qed.

Lemma comprehension_no_index {A B} (f : A -> result B) (l : list A) :
  (forall a, no_index_error (f a)) -> no_index_error (comprehension f l).
Proof.
  intros Hf. induction l as [|x rest IH]; simpl; [discriminate|].
  apply bind_no_index; [apply Hf|]. intros y.
  apply bind_no_index; [exact IH|]. discriminate.
Qed.

Lemma max_no_index (l : list float) : no_index_error (py_max l).
Proof. destruct l; discriminate. Qed.

(** Settles [no_index_error] of a sequence of arithmetic steps. *)
Ltac no_index :=
  repeat first
    [ apply ok_no_index
    | apply arith_no_index
    | apply truediv_no_index
    | apply sqrt_no_index
    | apply pow_no_index
    | apply sum_from_no_index
    | apply max_no_index
    | apply float_of_int_no_index
    | apply as_float_no_index
    | apply lift2_no_index; [intros ? ? | |]
    | apply comprehension_no_index; intros ?
    | apply bind_no_index; [| intros ?]
    | match goal with
      | |- no_index_error (let '(_, _) := ?p in _) => destruct p
      | |- no_index_error (ret_num _) => apply ok_no_index
      | |- no_index_error (py_add _ _) => apply arith_no_index
      | |- no_index_error (py_sub _ _) => apply arith_no_index
      | |- no_index_error (py_mul _ _) => apply arith_no_index
      | |- no_index_error (py_sum _) => apply sum_from_no_index
      end ].

Section Offsets.

Variable libm_pow : float -> float -> float.

(** X9: whatever the offset, the scale and the cached series, the Sharpe
    ratio never fails with an [IndexError]: an offset outside the series is
    not detected. *)
Theorem sharpe_ratio_no_index_error :
  forall (self : CompareMetrics) (daysin adjustedScale : Z),
    no_index_error (sharpe_ratio libm_pow self daysin adjustedScale).
Proof.
  intros self daysin scale. unfold sharpe_ratio, sharpe_period_return.
  no_index.
Qed.

Lemma my_metric_outside (self : CompareMetrics) (daysin s : Z) :
  daysin < 0 \/ 2 * len (portfolio self) <= daysin ->
  my_metric libm_pow self daysin s = Raise IndexError.
Proof.
  intros H. unfold my_metric. fold (risk_free_rate 252).
  destruct risk_free_rate_252 as [rate ->]. run.
  rewrite iloc_outside by lia. reflexivity.
Qed.

Lemma period_returns_no_index (self : CompareMetrics) (idx : Z)
    (target : Row) (ncols : nat) :
  rectangular ncols (portfolio self) ->
  idx < len (portfolio self) ->
  (0 <= idx -> portfolio self !! Z.to_nat idx = Some target) ->
  no_index_error (period_returns libm_pow self idx 252 target).
Proof.
  intros Hrect Hlt Htarget. unfold period_returns.
  destruct (Z.leb_spec 252 (idx + 1)) as [Hwin|_].
  - destruct (iloc_inside (portfolio self) (idx - 252 + 1))
      as (init & Hi & ->); [lia|]. run.
    pose proof (Forall_lookup_1 _ _ _ _ Hrect (Htarget ltac:(lia))) as Hlt'.
    pose proof (Forall_lookup_1 _ _ _ _ Hrect Hi) as Hli. simpl in Hlt', Hli.
    destruct (window_loop_spec init 0%nat target 0 (PyInt 0) sum_kind_0)
      as (c & _ & _ & ->); [lia|].
    run. apply truediv_no_index.
  - no_index.
Qed.

(** X10: on a rectangular table the Burke ratio fails with an [IndexError]
    exactly when the offset is negative or at least twice the number of
    days: an offset from the number of days up to twice that number is not
    rejected, the position wraps around to count from the other end. *)
Theorem my_metric_index_error_iff :
  forall (self : CompareMetrics) (daysin s : Z) (ncols : nat),
    rectangular ncols (portfolio self) ->
    my_metric libm_pow self daysin s = Raise IndexError <->
    daysin < 0 \/ 2 * len (portfolio self) <= daysin.
Proof.
  intros self daysin s ncols Hrect. split; [|apply my_metric_outside].
  intros Hraise.
  destruct (Z.lt_ge_cases daysin 0) as [|Hge]; [now left|].
  destruct (Z.le_gt_cases (2 * len (portfolio self)) daysin) as [|Hlt];
    [now right|].
  exfalso. revert Hraise. unfold my_metric. fold (risk_free_rate 252).
  destruct risk_free_rate_252 as [rate ->]. run.
  set (idx := len (portfolio self) - 1 - daysin).
  destruct (iloc_wraps (portfolio self) idx) as [target Ht];
    [subst idx; lia|].
  rewrite Ht. run.
  assert (Htarget : 0 <= idx -> portfolio self !! Z.to_nat idx = Some target).
  { intros Hidx.
    destruct (iloc_inside (portfolio self) idx) as (a & Ha & Hiloc);
      [subst idx; lia|].
    rewrite Hiloc in Ht. now injection Ht as <-. }
  assert (Hno : no_index_error
    (bind (period_returns libm_pow self idx 252 target)
       (fun returns =>
          bind (py_sub returns (PyFloat rate))
            (fun rpMinusrf =>
               bind (drawdown_denom libm_pow self idx)
                 (fun denom => py_truediv rpMinusrf denom))))).
  { apply bind_no_index.
    - apply (period_returns_no_index self idx target ncols Hrect);
        [subst idx; lia | exact Htarget].
    - intros returns. unfold drawdown_denom. no_index. }
  exact Hno.
Qed.

(** *** The Sharpe ratio outside the series *)

Lemma sharpe_ratio_of_slice (self : CompareMetrics) (d1 d2 scale : Z) :
  slice_to (daily_returns self) (len (daily_returns self) - d1) =
  slice_to (daily_returns self) (len (daily_returns self) - d2) ->
  sharpe_ratio libm_pow self d1 scale = sharpe_ratio libm_pow self d2 scale.
Proof. intros H. unfold sharpe_ratio. rewrite H. reflexivity. Qed.

(** X11: an offset beyond the series is not rejected by the Sharpe ratio:
    between one and two lengths of the series it gives what the offset
    reduced by the length gives, and a negative offset gives what the
    offset 0 gives. *)
Theorem sharpe_ratio_wraps_around :
  forall (self : CompareMetrics) (daysin adjustedScale : Z),
    let n := len (daily_returns self) in
    (n < daysin <= 2 * n ->
     sharpe_ratio libm_pow self daysin adjustedScale =
     sharpe_ratio libm_pow self (daysin - n) adjustedScale) /\
    (daysin < 0 ->
     sharpe_ratio libm_pow self daysin adjustedScale =
     sharpe_ratio libm_pow self 0 adjustedScale).
Proof.
  intros self daysin scale n.
  assert (0 <= n) as Hn by (subst n; unfold len; lia).
  split; intros H; apply sharpe_ratio_of_slice; unfold slice_to; fold n;
    clearbody n.
  - destruct (Z.ltb_spec (n - daysin) 0); [|lia].
    destruct (Z.ltb_spec (n - (daysin - n)) 0); [lia|].
    f_equal. lia.
  - destruct (Z.ltb_spec (n - daysin) 0); [lia|].
    destruct (Z.ltb_spec (n - 0) 0); [lia|].
    f_equal. lia.
Qed.

(** X12: when the offset leaves no daily return (it is the length of the
    series, or at least twice the length), the Sharpe ratio divides the sum
    of nothing by zero: once the risk-free rate is computed it raises
    [ZeroDivisionError]. *)
Theorem sharpe_ratio_of_no_returns :
  forall (self : CompareMetrics) (daysin adjustedScale : Z),
    let n := len (daily_returns self) in
    daysin = n \/ 2 * n <= daysin ->
    sharpe_ratio libm_pow self daysin adjustedScale =
      (rate ← risk_free_rate adjustedScale; Raise ZeroDivisionError).
Proof.
  intros self daysin scale n H. unfold sharpe_ratio.
  fold (risk_free_rate scale). fold n.
  assert (Hempty : slice_to (daily_returns self) (n - daysin) = []).
  { unfold slice_to. fold n. assert (0 <= n) by (subst n; unfold len; lia).
    clearbody n. destruct (Z.ltb_spec (n - daysin) 0).
    - rewrite Z.max_l by lia. reflexivity.
    - rewrite Z.min_l by lia. replace (n - daysin) with 0 by lia.
      reflexivity. }
  rewrite Hempty. destruct (risk_free_rate scale); reflexivity.
Qed.

(** *** Zero counts and a zero peak in the Burke ratio *)

(** X13: with a full window of history on a rectangular table, when no
    asset is observed both in the target row and in the first row of the
    window, the Burke ratio divides the int 0 by the count 0 and raises
    [ZeroDivisionError]. *)
Theorem my_metric_without_common_asset :
  forall (self : CompareMetrics) (daysin s : Z) (ncols : nat)
         (targetRow initRow : Row),
    let targetRowIndex := len (portfolio self) - 1 - daysin in
    rectangular ncols (portfolio self) ->
    0 <= daysin ->
    252 <= targetRowIndex + 1 ->
    portfolio self !! Z.to_nat targetRowIndex = Some targetRow ->
    portfolio self !! Z.to_nat (targetRowIndex - 252 + 1) = Some initRow ->
    window_changes targetRow initRow = [] ->
    my_metric libm_pow self daysin s = Raise ZeroDivisionError.
Proof.
  intros self daysin s ncols target init idx Hrect Hd Hwin Ht Hi Hnone.
  unfold my_metric. fold (risk_free_rate 252).
  destruct risk_free_rate_252 as [rate ->]. run. fold idx.
  destruct (iloc_inside (portfolio self) idx) as (t' & Ht' & ->);
    [subst idx; lia|].
  rewrite Ht in Ht'. injection Ht' as <-. run.
  unfold period_returns.
  destruct (Z.leb_spec 252 (idx + 1)) as [_|]; [|lia].
  destruct (iloc_inside (portfolio self) (idx - 252 + 1)) as (i' & Hi' & ->);
    [subst idx; lia|].
  rewrite Hi in Hi'. injection Hi' as <-. run.
  pose proof (Forall_lookup_1 _ _ _ _ Hrect Ht) as Hlt.
  pose proof (Forall_lookup_1 _ _ _ _ Hrect Hi) as Hli. simpl in Hlt, Hli.
  destruct (window_loop_spec init 0%nat target 0 (PyInt 0) sum_kind_0)
    as (c & Hs & _ & Hl); [lia|].
  rewrite drop_0, Hnone in Hs, Hl. simpl in Hs. injection Hs as <-.
  rewrite Hl. reflexivity.
Qed.

(** X14: when the largest daily value up to the target row is zero, the
    first drawdown divides by it: if the period return is computed, the
    Burke ratio raises [ZeroDivisionError]. *)
Theorem my_metric_with_zero_peak :
  forall (self : CompareMetrics) (daysin s : Z) (targetDate : Row)
         (returns : num) (peak : float),
    let burkeRatioIdx := len (portfolio self) - 1 - daysin in
    iloc (portfolio self) burkeRatioIdx = Ok targetDate ->
    period_returns libm_pow self burkeRatioIdx 252 targetDate = Ok returns ->
    py_max (slice_to (daily_values self) (burkeRatioIdx + 1)) = Ok peak ->
    is_zero peak = true ->
    my_metric libm_pow self daysin s = Raise ZeroDivisionError.
Proof.
  intros self daysin s target returns peak idx Ht Hr Hmax Hzero.
  unfold my_metric. fold (risk_free_rate 252).
  destruct risk_free_rate_252 as [rate ->]. run. fold idx.
  rewrite Ht. run. rewrite Hr. run.
  destruct (sub_floats returns (PyFloat rate)) as (excess & -> & _);
    [now apply period_returns_kind in Hr | reflexivity |]. run.
  unfold drawdown_denom. rewrite Hmax. run.
  destruct (slice_to (daily_values self) (idx + 1)) as [|v rest];
    [discriminate|].
  simpl. unfold py_truediv. simpl. rewrite Hzero.
  destruct (py_sub (PyFloat v) (PyFloat peak)) as [[z|f|f]|e] eqn:Hsub;
    try reflexivity; discriminate.
Qed.

End Offsets.

(** ** The sweep and the constructor as compositions *)

Section Composition.

Variable libm_pow : float -> float -> float.
Variable series_mean : list float -> float.

(** X15: the sweep returns a frame exactly when none of its 108 ratio calls
    raises: one raising call, at any offset, and no frame is built. *)
Theorem compare_metrics_returns_iff :
  forall self : CompareMetrics,
    raises (compare_metrics libm_pow self) =
    negb (forallb (returns_both libm_pow self) (py_range 1 800 15)).
Proof.
  intros self.
  destruct (forallb (returns_both libm_pow self) (py_range 1 800 15))
    eqn:Hall; simpl.
  - destruct (sweep_loop_spec libm_pow self _ [] [] Hall)
      as (ss & bs & Hl & Hss & Hbs).
    destruct (column_spec _ _ _
                (fun i => sharpe_ratio_kind libm_pow self i 252) Hss)
      as (xs & Hxs & _).
    destruct (column_spec _ _ _
                (fun i => my_metric_kind libm_pow self i 252) Hbs)
      as (ys & Hys & _).
    unfold compare_metrics. rewrite Hl. simpl app. cbn [bind].
    rewrite Hxs, Hys. reflexivity.
  - now apply compare_metrics_raises.
Qed.

Lemma failing_offset (self : CompareMetrics) (i : Z) (offsets : list Z) :
  In i offsets ->
  returns_both libm_pow self i = false ->
  forallb (returns_both libm_pow self) offsets = false.
Proof.
  intros Hin Hr. destruct (forallb _ offsets) eqn:Hall; [|reflexivity].
  rewrite List.forallb_forall in Hall. specialize (Hall i Hin).
  congruence.
Qed.

Lemma with_series_portfolio (table : PriceTable) (self : CompareMetrics) :
  with_series table = Ok self -> portfolio self = table.
Proof.
  unfold with_series. destruct (calc_daily_returns (bare table));
    [|discriminate].
  simpl. now intros [= <-].
Qed.

(** X16: the constructor cannot succeed on a table of fewer than 399 days:
    the sweep reaches the offset 796, which is then at least twice the number
    of days, so that the Burke ratio fails there if nothing failed before. *)
Theorem init_needs_399_days :
  forall table : PriceTable,
    len table < 399 -> raises (init libm_pow series_mean table) = true.
Proof.
  intros table Hshort. unfold init.
  destruct (with_series table) as [self|e] eqn:Hself; [|reflexivity].
  apply with_series_portfolio in Hself. cbn [bind].
  destruct (my_metric libm_pow self 0 252); [|reflexivity]. cbn [bind].
  destruct (sharpe_ratio libm_pow self 0 252); [|reflexivity]. cbn [bind].
  assert (Hsweep : raises (compare_metrics libm_pow self) = true).
  { apply compare_metrics_raises, (failing_offset self 796).
    - rewrite py_range_sweep. apply List.in_map_iff. exists 53%nat.
      split; [reflexivity | apply List.in_seq; lia].
    - unfold returns_both.
      rewrite (my_metric_outside libm_pow self 796 252)
        by (rewrite Hself; lia).
      apply andb_false_r. }
  destruct (compare_metrics libm_pow self); [discriminate | reflexivity].
Qed.

End Composition.

(** ** The correlation: symmetry *)

Lemma SFmul_comm (x y : spec_float) :
  SFmul prec emax x y = SFmul prec emax y x.
Proof.
  destruct x as [sx|sx| |sx mx ex], y as [sy|sy| |sy my ey]; simpl;
    try reflexivity; try (now rewrite xorb_comm).
  now rewrite xorb_comm, Pos.mul_comm, Z.add_comm.
Qed.

Lemma float_mul_comm (a b : float) : (a * b)%float = (b * a)%float.
Proof.
  apply Prim2SF_inj. rewrite !mul_spec. apply SFmul_comm.
Qed.

Lemma sum_kind_mul_comm (b c : num) :
  sum_kind b -> sum_kind c -> py_mul b c = py_mul c b.
Proof.
  intros [-> | [fb ->]] [-> | [fc ->]]; try reflexivity;
    unfold py_mul, arith; simpl; now rewrite float_mul_comm.
Qed.

Lemma products_flip (ax ay : float) (X : list float) :
  forall Y : list float,
    zip_with (fun x y => NpFloat ((x - ax) * (y - ay))) X Y =
    zip_with (fun y x => NpFloat ((y - ay) * (x - ax))) Y X.
Proof.
  induction X as [|x X IH]; intros [|y Y]; simpl; try reflexivity.
  now rewrite IH, float_mul_comm.
Qed.

Section Symmetry.

Variable libm_pow : float -> float -> float.
Variable series_mean : list float -> float.

(** X17: the coefficient does not depend on which metric is taken as x and
    which as y: on two columns of the same length, exchanging them gives the
    same outcome, bit for bit. *)
Theorem get_correlation_coefficient_symmetric :
  forall self : CompareMetrics,
    length (Sharpe (compareMetrics self)) =
    length (Burke (compareMetrics self)) ->
    get_correlation_coefficient libm_pow series_mean (swap_columns self) =
    get_correlation_coefficient libm_pow series_mean self.
Proof.
  intros self Hlen. unfold get_correlation_coefficient, swap_columns.
  cbn [compareMetrics Sharpe Burke].
  set (X := Sharpe (compareMetrics self)) in *.
  set (Y := Burke (compareMetrics self)) in *.
  unfold correlation. cbn [mean zero times root over python_arithmetic].
  destruct (correlation_loop_python libm_pow series_mean X 0%nat Y
              (series_mean X) (series_mean Y) (PyInt 0) (PyInt 0) (PyInt 0))
    as (a & b & c & Ha & Hb & Hc & _ & Kb & Kc & Hl);
    [auto with risk | auto with risk | auto with risk | simpl; lia |].
  destruct (correlation_loop_python libm_pow series_mean Y 0%nat X
              (series_mean Y) (series_mean X) (PyInt 0) (PyInt 0) (PyInt 0))
    as (a' & b' & c' & Ha' & Hb' & Hc' & _ & _ & _ & Hl');
    [auto with risk | auto with risk | auto with risk | simpl; lia |].
  rewrite drop_0, Hlen, firstn_all in Ha, Hc.
  rewrite drop_0, <- Hlen, firstn_all in Ha', Hc'.
  rewrite <- products_flip, Ha in Ha'. injection Ha' as <-.
  rewrite Hc in Hb'. injection Hb' as <-.
  rewrite Hb in Hc'. injection Hc' as <-.
  rewrite Hl, Hl'. cbn [bind].
  now rewrite (sum_kind_mul_comm c b Kc Kb).
Qed.

End Symmetry.

(** ** The further properties at concrete inputs *)

(** X3 at a first row whose second price is missing. *)
Lemma daily_return_carries_last_price_witness :
  daily_return ∅ [100; nan]%float =
    Ok ({[ 0%nat := 100%float ]}, PyFloat 0) /\
  ({[ 0%nat := 100%float ]} : gmap nat float) !! 0%nat =
    carried ∅ [100; nan]%float 0 /\
  ({[ 0%nat := 100%float ]} : gmap nat float) !! 1%nat =
    carried ∅ [100; nan]%float 1.
Proof.
  assert (H : daily_return ∅ [100; nan]%float =
              Ok ({[ 0%nat := 100%float ]}, PyFloat 0)) by reflexivity.
  split; [exact H|].
  split; exact (daily_return_carries_last_price _ _ _ _ H _).
Defined.

(** X4 at the three-day table: the return of the second day. *)
Lemma daily_return_between_fully_observed_days_witness :
  exists r,
    daily_returns (object_of small_table) !! 1%nat = Some r /\
    (py_sum (day_changes [110; 190]%float [100; 200]%float) /
     PyInt (len [110; 190]%float))%py = Ok r.
Proof.
  assert (H : calc_daily_returns (bare small_table) =
              Ok (daily_returns (object_of small_table)))
    by (vm_compute; reflexivity).
  exact (daily_return_between_fully_observed_days (bare small_table) _ 0
           [100; 200]%float [110; 190]%float H eq_refl eq_refl
           eq_refl eq_refl eq_refl).
Defined.

(** X5 at the three-day table, cut after its first day. *)
Lemma calc_daily_returns_of_prefix_witness :
  calc_daily_returns (bare ([[100; 200]%float] ++ tail small_table)) =
    Ok (daily_returns (object_of small_table)) /\
  calc_daily_returns (bare [[100; 200]%float]) =
    Ok (take 1 (daily_returns (object_of small_table))).
Proof.
  assert (H : calc_daily_returns
                (bare ([[100; 200]%float] ++ tail small_table)) =
              Ok (daily_returns (object_of small_table)))
    by (vm_compute; reflexivity).
  split; [exact H|].
  exact (calc_daily_returns_of_prefix _ _ _ H).
Defined.

(** X6 at a table whose second day has no price. *)
Lemma calc_daily_returns_needs_a_price_every_day_witness :
  raises (calc_daily_returns (bare [[100]; [nan]]%float)) = true.
Proof.
  exact (calc_daily_returns_needs_a_price_every_day
           (bare [[100]; [nan]]%float) eq_refl).
Defined.

(** X7 at the three-day table. *)
Lemma with_series_invariant_witness :
  with_series small_table = Ok (object_of small_table) /\
  portfolio (object_of small_table) = small_table /\
  length (daily_returns (object_of small_table)) = length small_table /\
  length (daily_values (object_of small_table)) = length small_table /\
  cached (object_of small_table).
Proof.
  assert (H : with_series small_table = Ok (object_of small_table))
    by (vm_compute; reflexivity).
  split; [exact H|].
  exact (with_series_invariant _ _ H).
Defined.

(** X10 at the three-day table and the offset 6, twice its length. *)
Lemma my_metric_index_error_iff_witness :
  rectangular 2 (portfolio (bare small_table)) /\
  (my_metric example_pow (bare small_table) 6 252 = Raise IndexError <->
   6 < 0 \/ 2 * len (portfolio (bare small_table)) <= 6).
Proof.
  assert (H : rectangular 2 (portfolio (bare small_table)))
    by (repeat constructor).
  split; [exact H|].
  exact (my_metric_index_error_iff example_pow (bare small_table) 6 252 2 H).
Defined.

(** X12 at the three-day table and the offset 3, the length of its series. *)
Lemma sharpe_ratio_of_no_returns_witness :
  sharpe_ratio example_pow (object_of small_table) 3 252 =
    (rate ← risk_free_rate 252; Raise ZeroDivisionError).
Proof.
  assert (H : 3 = len (daily_returns (object_of small_table)) \/
              2 * len (daily_returns (object_of small_table)) <= 3)
    by (left; vm_compute; reflexivity).
  exact (sharpe_ratio_of_no_returns example_pow (object_of small_table)
           3 252 H).
Defined.

Lemma disjoint_table_rectangular : rectangular 2 disjoint_table.
Proof.
  unfold rectangular, disjoint_table. constructor; [reflexivity|].
  apply Forall_app. split; [|repeat constructor].
  apply List.Forall_forall. intros row Hrow.
  apply repeat_spec in Hrow. now subst.
Qed.

(** X13 at the 252-day table whose first and last day share no asset. *)
Lemma my_metric_without_common_asset_witness :
  window_changes [nan; 1]%float [1; nan]%float = [] /\
  my_metric example_pow (bare disjoint_table) 0 252 = Raise ZeroDivisionError.
Proof.
  assert (H : window_changes [nan; 1]%float [1; nan]%float = [])
    by reflexivity.
  split; [exact H|].
  refine (my_metric_without_common_asset example_pow (bare disjoint_table)
            0 252 2 [nan; 1]%float [1; nan]%float
            disjoint_table_rectangular _ _ _ _ H).
  - lia.
  - vm_compute. discriminate.
  - vm_compute. reflexivity.
  - vm_compute. reflexivity.
Defined.

(** X14 at the two-day table of zero prices. *)
Lemma my_metric_with_zero_peak_witness :
  py_max (slice_to (daily_values (object_of zero_table)) 2) = Ok 0%float /\
  my_metric example_pow (object_of zero_table) 0 252 =
    Raise ZeroDivisionError.
Proof.
  assert (H : py_max (slice_to (daily_values (object_of zero_table))
                        (len (portfolio (object_of zero_table)) - 1 - 0 + 1))
              = Ok 0%float) by (vm_compute; reflexivity).
  split; [exact H|].
  refine (my_metric_with_zero_peak example_pow (object_of zero_table) 0 252
            [0%float] (NpFloat nan) 0%float _ _ H eq_refl);
    vm_compute; reflexivity.
Defined.

(** X16 at the three-day table. *)
Lemma init_needs_399_days_witness :
  raises (init example_pow example_mean small_table) = true.
Proof.
  assert (H : len small_table < 399) by (vm_compute; reflexivity).
  exact (init_needs_399_days example_pow example_mean small_table H).
Defined.

(** X17 at two columns of three entries. *)
Lemma get_correlation_coefficient_symmetric_witness :
  get_correlation_coefficient example_pow example_mean
    (swap_columns
       {| portfolio := []; daily_returns := []; daily_values := [];
          compareMetrics := {| index := [1; 16; 31];
                               Sharpe := [1; 2; 4]%float;
                               Burke := [3; 1; 2]%float |} |}) =
  get_correlation_coefficient example_pow example_mean
    {| portfolio := []; daily_returns := []; daily_values := [];
       compareMetrics := {| index := [1; 16; 31];
                            Sharpe := [1; 2; 4]%float;
                            Burke := [3; 1; 2]%float |} |}.
Proof.
  exact (get_correlation_coefficient_symmetric example_pow example_mean
           {| portfolio := []; daily_returns := []; daily_values := [];
              compareMetrics := {| index := [1; 16; 31];
                                   Sharpe := [1; 2; 4]%float;
                                   Burke := [3; 1; 2]%float |} |}
           eq_refl).
Defined.
